(** * UNICBot (pproj3.py): keyword routing, model client, document summaries

    A shallow embedding of [src/pproj3.py] and the properties of its
    keyword matcher, response router, model client, keyword loader and
    document pipeline.

    Text.  A Python [str] is a sequence of code points.  The embedding takes
    the code points U+0000..U+00FF, one [ascii] each, so a [string] is a
    Python [str] over Latin-1.  On that range [str.lower], [str.strip] and
    [string.punctuation] are the finite tables written out below.

    Effects.  The program reads files, posts HTTP requests, parses PDFs
    and writes to the Streamlit page.  The outside is a [world] record
    of oracles; a computation is a function of the world and of the
    trace of effects so far, returning a value or raising an exception. *)

From Stdlib Require Import String Ascii NArith ZArith List Bool Lia.
From Stdlib Require Import DecimalString.
From stdpp Require Import base gmap strings list.

Local Open Scope string_scope.

(** ** Python string primitives *)

Module PyStr.

Definition code (c : ascii) : N := N_of_ascii c.

Definition between (lo hi : N) (c : ascii) : bool :=
  (N.leb lo (code c) && N.leb (code c) hi)%bool.

(** [ch in s] for a single character. *)
Fixpoint mem (c : ascii) (s : string) : bool :=
  match s with
  | EmptyString => false
  | String d s' => if Ascii.eqb c d then true else mem c s'
  end.

(** [string.punctuation]: the 32 ASCII punctuation characters, in the
    order of the Python constant (code 34 is the double quote). *)
Definition punctuation : string :=
  String "!" (String (ascii_of_N 34) "#$%&'()*+,-./:;<=>?@[\]^_`{|}~").

(** [s.translate(str.maketrans('', '', deletechars))]: every character
    listed in [deletechars] is dropped, the others are kept in place. *)
Fixpoint translate_delete (deletechars s : string) : string :=
  match s with
  | EmptyString => EmptyString
  | String c s' =>
      if mem c deletechars then translate_delete deletechars s'
      else String c (translate_delete deletechars s')
  end.

(** Uppercase letters of Latin-1: A-Z, and U+00C0..U+00DE without the
    multiplication sign U+00D7. *)
Definition is_ascii_upper (c : ascii) : bool := between 65 90 c.

Definition is_upper (c : ascii) : bool :=
  (is_ascii_upper c || between 192 214 c || between 216 222 c)%bool.

Definition lower_char (c : ascii) : ascii :=
  if is_upper c then ascii_of_N (code c + 32) else c.

(** [s.lower()] *)
Fixpoint lower (s : string) : string :=
  match s with
  | EmptyString => EmptyString
  | String c s' => String (lower_char c) (lower s')
  end.

(** [c.isspace()] on Latin-1: TAB, LF, VT, FF, CR, the separators
    U+001C..U+001F, SPACE, NEL (U+0085) and NBSP (U+00A0). *)
Definition is_space (c : ascii) : bool :=
  (between 9 13 c || between 28 32 c
   || N.eqb (code c) 133 || N.eqb (code c) 160)%bool.

Fixpoint lstrip (s : string) : string :=
  match s with
  | EmptyString => EmptyString
  | String c s' => if is_space c then lstrip s' else s
  end.

Fixpoint rstrip (s : string) : string :=
  match s with
  | EmptyString => EmptyString
  | String c s' =>
      match rstrip s' with
      | EmptyString => if is_space c then EmptyString else String c EmptyString
      | r => String c r
      end
  end.

(** [s.strip()] *)
Definition strip (s : string) : string := rstrip (lstrip s).

(** Truth value of a string: [if s] holds when [s] is not empty. *)
Definition truthy (s : string) : bool :=
  match s with EmptyString => false | String _ _ => true end.

(** [s.split(sep)] for a one-character separator: always at least one
    piece, empty pieces are kept. *)
Fixpoint split (sep : ascii) (s : string) : list string :=
  match s with
  | EmptyString => [EmptyString]
  | String c s' =>
      if Ascii.eqb c sep then EmptyString :: split sep s'
      else match split sep s' with
           | p :: ps => String c p :: ps
           | [] => [String c EmptyString]
           end
  end.

(** Iterating a text file: the lines, each with its terminating LF,
    the last one without when the text does not end in LF. *)
Definition LF : ascii := ascii_of_N 10.

Fixpoint lines (s : string) : list string :=
  match s with
  | EmptyString => []
  | String c s' =>
      if Ascii.eqb c LF then String c EmptyString :: lines s'
      else match lines s' with
           | l :: ls => String c l :: ls
           | [] => [String c EmptyString]
           end
  end.

Fixpoint startswith (p s : string) : bool :=
  match p, s with
  | EmptyString, _ => true
  | String a p', String b s' => if Ascii.eqb a b then startswith p' s' else false
  | String _ _, EmptyString => false
  end.

(** [k in s] for strings: [k] occurs in [s] as a contiguous block. *)
Fixpoint contains (k s : string) : bool :=
  (startswith k s ||
   match s with
   | EmptyString => false
   | String _ s' => contains k s'
   end)%bool.

(** [str(n)] for an integer. *)
Definition str_of_Z (n : Z) : string := NilZero.string_of_int (Z.to_int n).

End PyStr.

(** ** Keyword matching (lines 41-68) *)

(** [clean_input]: delete the punctuation, then lowercase. *)
Definition clean_input (user_input : string) : string :=
  PyStr.lower (PyStr.translate_delete PyStr.punctuation user_input).

(** [is_keyword_match]: [any(keyword in clean_input_text for keyword in
    keywords)].  [any] over a set does not depend on the iteration
    order; the elements are visited in the order of [elements]. *)
Definition is_keyword_match (user_input : string) (keywords : gset string) : bool :=
  let clean_input_text := clean_input user_input in
  existsb (fun keyword => PyStr.contains keyword clean_input_text) (elements keywords).

Definition is_greeting_query (user_input : string) (greeting_keywords : gset string) : bool :=
  is_keyword_match user_input greeting_keywords.

Definition is_exit_query (user_input : string) (exit_keywords : gset string) : bool :=
  is_keyword_match user_input exit_keywords.

Definition is_stem_query (user_input : string) (stem_keywords : gset string) : bool :=
  is_keyword_match user_input stem_keywords.

Definition is_appointment_query (user_input : string) (appointment_keywords : gset string) : bool :=
  is_keyword_match user_input appointment_keywords.

Definition is_reschedule_query (user_input : string) (reschedule_keywords : gset string) : bool :=
  is_keyword_match user_input reschedule_keywords.

(** ** Values, exceptions and effects *)

(** What [response.json()] can return: a Python object built from
    [None], [bool], numbers, [str], [list] and [dict].  A number keeps
    its lexeme; a [dict] is the list of its items, keys distinct. *)
#[warnings="-register-all"]
Inductive json : Type :=
  | JNull
  | JBool (b : bool)
  | JNum (lexeme : string)
  | JStr (s : string)
  | JArr (items : list json)
  | JObj (fields : list (string * json)).

(** The exceptions the program can meet.  [RequestException] stands for
    [requests.exceptions.RequestException] and all its subclasses
    (ConnectionError, Timeout, HTTPError, JSONDecodeError); it carries
    [str(e)].  The three file errors are distinct subclasses of
    [OSError].  [ValueError] is a ValueError of none of the classes
    listed apart.  [OtherException] is an exception of any other class,
    by the name of the class. *)
Inductive exn : Type :=
  | RequestException (msg : string)
  | IndexError
  | KeyError
  | TypeError
  | AttributeError
  | FileNotFoundError
  | PermissionError
  | IsADirectoryError
  | UnicodeDecodeError
  | PdfReadError
  | ValueError
  | RecursionError
  | OtherException (class_name : string).

Inductive outcome (A : Type) : Type :=
  | Return (a : A)
  | Raise (e : exn).
Arguments Return {A} a.
Arguments Raise {A} e.

Record message := { role : string; content : string }.

(** The arguments of one [requests.post] call. *)
Record request := {
  url : string;
  json_model : string;
  json_messages : list message;
  headers : list (string * string)
}.

(** The [Response] object, as far as the program looks at it: its
    status, its reason phrase, its URL, and what [json()] does on it,
    which is to return the parsed body or to raise (a JSONDecodeError
    on a body that is not JSON, a ValueError or a RecursionError of the
    parser on a number or a nesting it refuses). *)
Record response := {
  status_code : Z;
  reason : string;
  response_url : string;
  json_body : outcome json
}.

(** A Streamlit [UploadedFile]: its declared media type, its name and
    the bytes [read()] returns. *)
Record UploadedFile := {
  type : string;
  name : string;
  read : list Byte.byte
}.

(** The outside of the program.  [open_text] is [open(filename, 'r')]
    followed by reading the whole text; [requests_post] is the network
    and the server; [PdfReader_pages] is PyPDF2, giving for each page
    what its [extract_text()] does; [decode_utf8] is
    [bytes.decode("utf-8")]. *)
Record world := {
  getenv : string -> option string;
  open_text : string -> outcome string;
  requests_post : request -> outcome response;
  PdfReader_pages : list Byte.byte -> outcome (list (outcome string));
  decode_utf8 : list Byte.byte -> outcome string
}.

Inductive event : Type :=
  | EvPost (r : request)
  | EvStError (msg : string).

(** A computation: from the world and the effects so far to an outcome
    and the effects afterwards. *)
Definition M (A : Type) : Type := world -> list event -> outcome A * list event.

Definition ret {A} (a : A) : M A := fun _ tr => (Return a, tr).

Definition raise {A} (e : exn) : M A := fun _ tr => (Raise e, tr).

Definition bind {A B} (m : M A) (k : A -> M B) : M B :=
  fun w tr =>
    match m w tr with
    | (Return a, tr') => k a w tr'
    | (Raise e, tr') => (Raise e, tr')
    end.

Definition lift {A} (o : outcome A) : M A := fun _ tr => (o, tr).

(** [try: m  except <catches> as e: handler e] *)
Definition try_except {A} (m : M A) (catches : exn -> bool) (handler : exn -> M A) : M A :=
  fun w tr =>
    match m w tr with
    | (Return a, tr') => (Return a, tr')
    | (Raise e, tr') => if catches e then handler e w tr' else (Raise e, tr')
    end.

#[export] Instance M_ret : MRet M := @ret.
#[export] Instance M_bind : MBind M := fun A B k m => bind m k.

(** A [for] loop threading the loop-carried variable. *)
Fixpoint for_each {A S} (xs : list A) (body : S -> A -> M S) (s : S) : M S :=
  match xs with
  | [] => ret s
  | x :: xs' => s' ← body s x; for_each xs' body s'
  end.

Definition os_getenv (key : string) : M (option string) :=
  fun w tr => (Return (getenv w key), tr).

Definition open_read (filename : string) : M string :=
  fun w tr => (open_text w filename, tr).

(** [st.error(msg)]: the call is recorded among the effects; where the
    page is built, in [main], it is also the error box drawn there. *)
Definition st_error (msg : string) : M unit :=
  fun _ tr => (Return tt, (tr ++ [EvStError msg])%list).

Definition post (r : request) : M response :=
  fun w tr => (requests_post w r, (tr ++ [EvPost r])%list).

Definition is_RequestException (e : exn) : bool :=
  match e with RequestException _ => true | _ => false end.

Definition is_FileNotFoundError (e : exn) : bool :=
  match e with FileNotFoundError => true | _ => false end.

(** [str(e)] *)
Definition str_exn (e : exn) : string :=
  match e with
  | RequestException msg => msg
  | _ => ""
  end.

(** [response.raise_for_status()]: an [HTTPError] for the statuses
    400..599, nothing for the others. *)
Definition raise_for_status (r : response) : M unit :=
  let describe kind :=
    PyStr.str_of_Z (status_code r) +:+ kind +:+ reason r
    +:+ " for url: " +:+ response_url r in
  if (Z.leb 400 (status_code r) && Z.ltb (status_code r) 500)%bool
  then raise (RequestException (describe " Client Error: "))
  else if (Z.leb 500 (status_code r) && Z.ltb (status_code r) 600)%bool
  then raise (RequestException (describe " Server Error: "))
  else ret tt.

(** [response.json()] *)
Definition response_json (r : response) : M json := lift (json_body r).

Fixpoint assoc (key : string) (fields : list (string * json)) : option json :=
  match fields with
  | [] => None
  | (k, v) :: rest => if String.eqb k key then Some v else assoc key rest
  end.

(** [obj.get(key, default)]: only a [dict] has [get]. *)
Definition py_get (obj : json) (key : string) (default : json) : M json :=
  match obj with
  | JObj fields => ret (match assoc key fields with Some v => v | None => default end)
  | _ => raise AttributeError
  end.

(** [obj[0]] *)
Definition py_item0 (obj : json) : M json :=
  match obj with
  | JArr (x :: _) => ret x
  | JArr [] => raise IndexError
  | JStr (String c _) => ret (JStr (String c EmptyString))
  | JStr EmptyString => raise IndexError
  | JObj _ => raise KeyError
  | JNull | JBool _ | JNum _ => raise TypeError
  end.

(** [f"{x}"] of what [os.getenv] returns. *)
Definition str_of_option (o : option string) : string :=
  match o with Some s => s | None => "None" end.

(** ** The model client (lines 7-28) *)

Definition OLLAMA_BASE_URL : string := "http://localhost:11434/v1".
Definition MODEL_NAME : string := "llama3.2".

Definition NO_RESPONSE : string := "No response from model.".

Definition call_llama_api (prompt : string) : M json :=
  key ← os_getenv "OLLAMA_API_KEY";
  let headers :=
    [("Authorization", "Bearer " +:+ str_of_option key);
     ("Content-Type", "application/json")] in
  let data_model := MODEL_NAME in
  let data_messages := [{| role := "user"; content := prompt |}] in
  let target := OLLAMA_BASE_URL +:+ "/chat/completions" in
  try_except
    (response ← post {| url := target; json_model := data_model;
                        json_messages := data_messages; headers := headers |};
     _ ← raise_for_status response;
     body ← response_json response;
     choices ← py_get body "choices" (JArr [JObj []]);
     first ← py_item0 choices;
     msg ← py_get first "message" (JObj []);
     py_get msg "content" (JStr NO_RESPONSE))
    is_RequestException
    (fun e => mret (JStr ("API error: " +:+ str_exn e))).

(** ** The keyword loader (lines 30-39) *)

(** The generator of line 36 for one line of the file. *)
Definition line_keywords (line : string) : list string :=
  map (fun keyword => PyStr.lower (PyStr.strip keyword))
      (List.filter (fun keyword => PyStr.truthy (PyStr.strip keyword))
                   (PyStr.split "," line)).

(** The [for line in file] loop with [keywords.update]. *)
Definition update_all (keywords : gset string) (text : string) : gset string :=
  foldl (fun acc line => acc ∪ list_to_set (line_keywords line)) keywords (PyStr.lines text).

Definition load_keywords (filename : string) : M (gset string) :=
  let keywords : gset string := ∅ in
  try_except
    (text ← open_read filename;
     mret (update_all keywords text))
    is_FileNotFoundError
    (fun _ =>
       _ ← st_error ("Keyword file not found: " +:+ filename);
       mret keywords).

(** ** Documents (lines 70-94) *)

Definition extract_pdf_text (file : UploadedFile) : M string :=
  pages ← (fun w tr => (PdfReader_pages w (read file), tr));
  for_each (seq 0 (length pages))
    (fun text page_num =>
       match pages !! page_num with
       | Some page => t ← lift page; mret (text +:+ t)
       | None => raise IndexError
       end)
    "".

Definition nl : string := String PyStr.LF EmptyString.

Definition generate_summary_with_model (content : string) : M json :=
  let prompt := "Please provide a summary for the following content:" +:+ nl +:+ nl +:+ content in
  call_llama_api prompt.

Definition UNSUPPORTED : string :=
  "Unsupported file type. Please upload a PDF or text file.".

Definition handle_file_upload (uploaded_file : UploadedFile) : M json :=
  if String.eqb (type uploaded_file) "application/pdf" then
    text ← extract_pdf_text uploaded_file;
    generate_summary_with_model text
  else if String.eqb (type uploaded_file) "text/plain" then
    text ← (fun w tr => (decode_utf8 w (read uploaded_file), tr));
    generate_summary_with_model text
  else
    mret (JStr UNSUPPORTED).

(** ** The chatbot (lines 96-121) *)

Definition GREETING_REPLY : string := "Hello! How can I assist you today?".

Definition RESCHEDULE_REPLY : string :=
  "To make changes to your appointment, please reach out directly by emailing or calling our team:" +:+ nl +:+ nl
  +:+ "Email: info@unicgate.org" +:+ nl +:+ nl
  +:+ "Phone: +1 346-471-4390" +:+ nl +:+ nl
  +:+ "Please note that response times may vary as our team processes requests. We appreciate your patience and will do our best to accommodate your scheduling needs.".

Definition APPOINTMENT_REPLY : string :=
  "You can check my available slots and schedule an appointment using this link: [Schedule Appointment](https://cal.com/tankyash1)".

Definition EXIT_REPLY : string := "Goodbye! See you next time.".

Definition FALLBACK_REPLY : string :=
  "Sorry, I can only answer STEM-related questions or assist with appointment scheduling. Please ask something related to science, technology, engineering, or mathematics, or provide scheduling-related details.".

Definition stem_chatbot (user_input : string)
    (stem_keywords greeting_keywords exit_keywords
     appointment_keywords reschedule_keywords : gset string) : M json :=
  if is_greeting_query user_input greeting_keywords then
    mret (JStr GREETING_REPLY)
  else if is_reschedule_query user_input reschedule_keywords then
    mret (JStr RESCHEDULE_REPLY)
  else if is_appointment_query user_input appointment_keywords then
    mret (JStr APPOINTMENT_REPLY)
  else if is_stem_query user_input stem_keywords then
    call_llama_api user_input
  else if is_exit_query user_input exit_keywords then
    mret (JStr EXIT_REPLY)
  else
    mret (JStr FALLBACK_REPLY).

(** ** The page (lines 123-161) *)

(** One entry of the chat history, the dict with the keys role and
    message; the message of a bot entry is whatever the handler
    returned. *)
Record ChatMessage := { chat_role : string; chat_message : json }.

(** [st.session_state], as far as [main] uses it: a key that is absent
    is [None]. *)
Record session_state := {
  chat_history : option (list ChatMessage);
  session_ended : option bool
}.

(** The Streamlit calls [main] makes to build the page. *)
Inductive ui_call : Type :=
  | StTitle (body : list N)
  | StError (body : string)
  | StSubheader (body : string)
  | StChatMessage (name : string)
  | StMarkdown (body : json)
  | StForm (key : string)
  | StTextInput (label value : string)
  | StFileUploader (label : string) (types : list string) (label_visibility : string)
  | StFormSubmitButton (label : string).

(** What the three widgets of the form return in one run of the script. *)
Record form_values := {
  text_input : string;
  file_uploader : option UploadedFile;
  form_submit_button : bool
}.

(** The state one run of the script works on: the session, the page
    built so far and the effects of the functions above. *)
Record app_state := {
  session : session_state;
  page : list ui_call;
  effects : list event
}.

Definition App (A : Type) : Type := world -> app_state -> outcome A * app_state.

Definition app_ret {A} (a : A) : App A := fun _ st => (Return a, st).

Definition app_bind {A B} (m : App A) (k : A -> App B) : App B :=
  fun w st =>
    match m w st with
    | (Return a, st') => k a w st'
    | (Raise e, st') => (Raise e, st')
    end.

#[export] Instance App_ret : MRet App := @app_ret.
#[export] Instance App_bind : MBind App := fun A B k m => app_bind m k.

(** Calling one of the functions above from [main]: it continues the
    effects so far, and each [st.error] among the events it adds is
    also an element drawn on the page, at this place. *)
Definition error_boxes (events : list event) : list ui_call :=
  omap (fun ev => match ev with
                  | EvStError msg => Some (StError msg)
                  | EvPost _ => None
                  end) events.

Definition core {A} (m : M A) : App A :=
  fun w st =>
    match m w (effects st) with
    | (o, effects') =>
        (o, {| session := session st;
               page := (page st
                        ++ error_boxes (drop (length (effects st)) effects'))%list;
               effects := effects' |})
    end.

Definition ui (c : ui_call) : App unit :=
  fun _ st =>
    (Return tt,
     {| session := session st; page := (page st ++ [c])%list; effects := effects st |}).

Definition with_session (st : app_state) (s : session_state) : app_state :=
  {| session := s; page := page st; effects := effects st |}.

(** [if 'chat_history' not in st.session_state: ... = []] *)
Definition init_chat_history : App unit :=
  fun _ st =>
    match chat_history (session st) with
    | Some _ => (Return tt, st)
    | None =>
        (Return tt,
         with_session st {| chat_history := Some [];
                            session_ended := session_ended (session st) |})
    end.

(** [if 'session_ended' not in st.session_state: ... = False] *)
Definition init_session_ended : App unit :=
  fun _ st =>
    match session_ended (session st) with
    | Some _ => (Return tt, st)
    | None =>
        (Return tt,
         with_session st {| chat_history := chat_history (session st);
                            session_ended := Some false |})
    end.

(** [st.session_state.chat_history]: an absent attribute is an
    [AttributeError]. *)
Definition get_chat_history : App (list ChatMessage) :=
  fun _ st =>
    match chat_history (session st) with
    | Some history => (Return history, st)
    | None => (Raise AttributeError, st)
    end.

(** [st.session_state.chat_history.append(entry)] *)
Definition append_chat_history (entry : ChatMessage) : App unit :=
  fun _ st =>
    match chat_history (session st) with
    | Some history =>
        (Return tt,
         with_session st {| chat_history := Some (history ++ [entry])%list;
                            session_ended := session_ended (session st) |})
    | None => (Raise AttributeError, st)
    end.

Fixpoint app_for {A} (xs : list A) (body : A -> App unit) : App unit :=
  match xs with
  | [] => app_ret tt
  | x :: xs' => app_bind (body x) (fun _ => app_for xs' body)
  end.

(** The title of line 124, by its code points: the text UNICBot and a
    space, then U+00F0, U+0178, U+00A4 and U+2013.  Two of them lie
    beyond U+00FF; [main] only hands the title to [st.title]. *)
Definition TITLE : list N :=
  [85; 78; 73; 67; 66; 111; 116; 32; 240; 376; 164; 8211]%N.

Definition KEYWORD_DIR : string := "/Users/yashtank/Desktop/Project 3/Code/".

Definition main (widgets : form_values) : App unit :=
  _ ← ui (StTitle TITLE);
  _ ← init_chat_history;
  _ ← init_session_ended;
  stem_keywords ← core (load_keywords (KEYWORD_DIR +:+ "stem_keywords.txt"));
  greeting_keywords ← core (load_keywords (KEYWORD_DIR +:+ "greeting_keywords.txt"));
  exit_keywords ← core (load_keywords (KEYWORD_DIR +:+ "exit_keywords.txt"));
  appointment_keywords ← core (load_keywords (KEYWORD_DIR +:+ "appointment_keywords.txt"));
  reschedule_keywords ← core (load_keywords (KEYWORD_DIR +:+ "reschedule_keywords.txt"));
  _ ← ui (StSubheader "Chat History");
  history ← get_chat_history;
  _ ← app_for history
        (fun chat =>
           _ ← ui (StChatMessage (chat_role chat));
           ui (StMarkdown (chat_message chat)));
  _ ← ui (StForm "input_form");
  _ ← ui (StTextInput "Enter your STEM-related question or attach a document..." "");
  let user_input := text_input widgets in
  _ ← ui (StFileUploader "Attach a document" ["pdf"; "txt"] "collapsed");
  let uploaded_file := file_uploader widgets in
  _ ← ui (StFormSubmitButton "Submit");
  let submit_button := form_submit_button widgets in
  if submit_button then
    match uploaded_file with
    | Some uploaded_file =>
        file_summary ← core (handle_file_upload uploaded_file);
        _ ← append_chat_history
              {| chat_role := "user";
                 chat_message := JStr ("Uploaded file: " +:+ name uploaded_file) |};
        append_chat_history {| chat_role := "bot"; chat_message := file_summary |}
    | None =>
        if PyStr.truthy user_input then
          _ ← append_chat_history {| chat_role := "user"; chat_message := JStr user_input |};
          bot_response ← core (stem_chatbot user_input stem_keywords greeting_keywords
                                 exit_keywords appointment_keywords reschedule_keywords);
          append_chat_history {| chat_role := "bot"; chat_message := bot_response |}
        else mret tt
    end
  else mret tt.

(** ** The specification's vocabulary *)

(** Standard ASCII punctuation, by code: 33-47, 58-64, 91-96, 123-126. *)
Definition is_ascii_punctuation (c : ascii) : bool :=
  (PyStr.between 33 47 c || PyStr.between 58 64 c
   || PyStr.between 91 96 c || PyStr.between 123 126 c)%bool.

(** Normalisation in the specification's words: drop every ASCII
    punctuation character, lowercase what remains. *)
Fixpoint spec_normalize (text : string) : string :=
  match text with
  | EmptyString => EmptyString
  | String c rest =>
      if is_ascii_punctuation c then spec_normalize rest
      else String (PyStr.lower_char c) (spec_normalize rest)
  end.

(** [k] occurs in [s] as a contiguous substring. *)
Definition substring_of (k s : string) : Prop :=
  exists pre post, s = pre +:+ k +:+ post.

(** The first and the last character of a string, and what the claims
    say about the ends and the letters of a keyword. *)
Definition first_char (s : string) : option ascii :=
  match s with
  | EmptyString => None
  | String c _ => Some c
  end.

Fixpoint last_char (s : string) : option ascii :=
  match s with
  | EmptyString => None
  | String c EmptyString => Some c
  | String _ rest => last_char rest
  end.

Definition space_at (end_char : option ascii) : bool :=
  match end_char with
  | Some c => PyStr.is_space c
  | None => false
  end.

Definition has_leading_space (s : string) : bool := space_at (first_char s).
Definition has_trailing_space (s : string) : bool := space_at (last_char s).

Fixpoint has_ascii_upper (s : string) : bool :=
  match s with
  | EmptyString => false
  | String c rest => (PyStr.is_ascii_upper c || has_ascii_upper rest)%bool
  end.

(** The single-turn chat-completion request for a prompt: one message,
    role user, the prompt as content, and the bearer token. *)
Definition chat_request (token : option string) (prompt : string) : request :=
  {| url := OLLAMA_BASE_URL +:+ "/chat/completions";
     json_model := MODEL_NAME;
     json_messages := [{| role := "user"; content := prompt |}];
     headers := [("Authorization", "Bearer " +:+ str_of_option token);
                 ("Content-Type", "application/json")] |}.

(** The text of the [HTTPError] that [raise_for_status] raises for an
    error status: the status, Client Error for 4xx and Server Error for
    5xx, the reason phrase and the URL of the response. *)
Definition http_error_text (r : response) : string :=
  PyStr.str_of_Z (status_code r)
  +:+ (if Z.ltb (status_code r) 500 then " Client Error: " else " Server Error: ")
  +:+ reason r +:+ " for url: " +:+ response_url r.

(** A fault of the HTTP exchange and its description: the library
    raised one of its own exceptions, described by its [str], or the
    server answered with an error status, 4xx or 5xx, described by the
    text of the [HTTPError]. *)
Definition http_fault (o : outcome response) (description : string) : Prop :=
  o = Raise (RequestException description) \/
  (exists r, o = Return r /\ (400 <= status_code r < 600)%Z /\
             description = http_error_text r).

(** Page texts put one after the other, nothing in between. *)
Definition join_pages (texts : list string) : string :=
  fold_right String.append EmptyString texts.

(** The specification's intents, its classifier (the five sets tried in
    the fixed priority order, the first that matches wins) and its
    routing table. *)
Inductive Intent : Type :=
  | Greeting
  | Reschedule
  | Appointment
  | StemQuestion
  | Exit
  | Unknown.

Definition spec_classify (rawText : string)
    (greetingSet rescheduleSet appointmentSet stemSet exitSet : gset string) : Intent :=
  match find (fun category => is_keyword_match rawText (snd category))
             [(Greeting, greetingSet); (Reschedule, rescheduleSet);
              (Appointment, appointmentSet); (StemQuestion, stemSet);
              (Exit, exitSet)] with
  | Some (intent, _) => intent
  | None => Unknown
  end.

Definition spec_route (intent : Intent) (rawText : string) : M json :=
  match intent with
  | Greeting => mret (JStr GREETING_REPLY)
  | Reschedule => mret (JStr RESCHEDULE_REPLY)
  | Appointment => mret (JStr APPOINTMENT_REPLY)
  | StemQuestion => call_llama_api rawText
  | Exit => mret (JStr EXIT_REPLY)
  | Unknown => mret (JStr FALLBACK_REPLY)
  end.

Definition none_match (rawText : string)
    (greetingSet rescheduleSet appointmentSet stemSet exitSet : gset string) : Prop :=
  is_keyword_match rawText greetingSet = false /\
  is_keyword_match rawText rescheduleSet = false /\
  is_keyword_match rawText appointmentSet = false /\
  is_keyword_match rawText stemSet = false /\
  is_keyword_match rawText exitSet = false.

(** A computation is quiet when it leaves the trace as it found it. *)
Definition quiet {A} (m : M A) : Prop := forall w tr, snd (m w tr) = tr.

(** ** Concrete worlds *)

(** A world with nothing in it: no token, no files, no network, no
    documents.  The worlds below change one oracle of it. *)
Definition offline : world :=
  {| getenv := fun _ => None;
     open_text := fun _ => Raise FileNotFoundError;
     requests_post := fun _ => Raise (RequestException "Connection refused");
     PdfReader_pages := fun _ => Raise PdfReadError;
     decode_utf8 := fun _ => Raise UnicodeDecodeError |}.

Definition with_server (answer : outcome response) : world :=
  {| getenv := getenv offline;
     open_text := open_text offline;
     requests_post := fun _ => answer;
     PdfReader_pages := PdfReader_pages offline;
     decode_utf8 := decode_utf8 offline |}.

Definition with_file (filename : string) (state : outcome string) : world :=
  {| getenv := getenv offline;
     open_text := fun f => if String.eqb f filename then state else open_text offline f;
     requests_post := requests_post offline;
     PdfReader_pages := PdfReader_pages offline;
     decode_utf8 := decode_utf8 offline |}.

Definition with_pdf (pages : list (outcome string)) : world :=
  {| getenv := getenv offline;
     open_text := open_text offline;
     requests_post := requests_post offline;
     PdfReader_pages := fun _ => Return pages;
     decode_utf8 := decode_utf8 offline |}.

(** The body [{"choices": [{"message": {"content": text}}]}]. *)
Definition reply_body (text : string) : json :=
  JObj [("choices", JArr [JObj [("message", JObj [("content", JStr text)])]])].

(** The body [{"choices": []}]. *)
Definition empty_choices_body : json := JObj [("choices", JArr [])].

Definition ok_response (body : json) : response :=
  {| status_code := 200; reason := "OK";
     response_url := "http://localhost:11434/v1/chat/completions";
     json_body := Return body |}.

(** A 200 answer whose body is nested too deeply for the JSON parser. *)
Definition too_deep_response : response :=
  {| status_code := 200; reason := "OK";
     response_url := "http://localhost:11434/v1/chat/completions";
     json_body := Raise RecursionError |}.

(** A 404 answer of the endpoint, with a body that is not JSON. *)
Definition not_found_response : response :=
  {| status_code := 404; reason := "Not Found";
     response_url := "http://localhost:11434/v1/chat/completions";
     json_body := Raise (RequestException "Expecting value: line 1 column 1 (char 0)") |}.

(** The keyword sets and the keyword file of the scenarios. *)
Definition greeting_set : gset string := {["hello"; "hi"]}.
Definition reschedule_set : gset string := {["reschedule"]}.
Definition appointment_set : gset string := {["appointment"]}.
Definition stem_set : gset string := {["biology"]}.
Definition exit_set : gset string := {["bye"]}.

Definition keyword_file : string :=
  "Hello, Hi ,," +:+ nl +:+ "  GOOD Morning " +:+ nl +:+ ",hey".

(** Some character of the string satisfies [p]. *)
Fixpoint any_char (p : ascii -> bool) (s : string) : bool :=
  match s with
  | EmptyString => false
  | String c rest => (p c || any_char p rest)%bool
  end.

(** Characters no normalised text contains: ASCII punctuation, which is
    deleted, and the ASCII uppercase letters A-Z, which are replaced by
    their lowercase ones. *)
Definition never_in_clean_input (c : ascii) : bool :=
  (is_ascii_punctuation c || PyStr.is_ascii_upper c)%bool.

(** A character that can be part of a keyword: neither whitespace nor
    the separating comma. *)
Definition keyword_char (c : ascii) : bool :=
  (negb (PyStr.is_space c) && negb (Ascii.eqb c ","))%bool.

(** Every exception the computation can raise satisfies [P]. *)
Definition raises_only {A} (P : exn -> Prop) (m : M A) : Prop :=
  forall w tr e tr', m w tr = (Raise e, tr') -> P e.

(** The errors of taking a Python object apart, or a fault of the HTTP
    exchange. *)
Definition extraction_error (e : exn) : Prop :=
  e = IndexError \/ e = KeyError \/ e = TypeError \/ e = AttributeError.

(** What can go wrong once a response [r] has arrived: an exception of
    the HTTP library, the exception [r.json()] raises, or an error of
    taking the body apart. *)
Definition exchange_error (r : response) (e : exn) : Prop :=
  is_RequestException e = true \/ json_body r = Raise e \/ extraction_error e.

(** The summarisation prompt for a text. *)
Definition summary_prompt (text : string) : string :=
  "Please provide a summary for the following content:" +:+ nl +:+ nl +:+ text.

(** The ways the text of an uploaded document can fail to be extracted:
    the PDF does not open, one of its pages fails after the pages before
    it succeeded, or the bytes of a text file do not decode. *)
Definition extraction_fails (w : world) (file : UploadedFile) (e : exn) : Prop :=
  (type file = "application/pdf" /\
   (PdfReader_pages w (read file) = Raise e \/
    exists texts rest,
      PdfReader_pages w (read file) = Return (map Return texts ++ Raise e :: rest)%list))
  \/
  (type file = "text/plain" /\ decode_utf8 w (read file) = Raise e).

Definition with_text (decoded : outcome string) : world :=
  {| getenv := getenv offline;
     open_text := open_text offline;
     requests_post := requests_post offline;
     PdfReader_pages := PdfReader_pages offline;
     decode_utf8 := fun _ => decoded |}.

(** The vocabulary for one run of [main]. *)

(** The history and the end-of-session flag as [main] sees them after
    its initialisation: an absent key counts as its initial value. *)
Definition history (st : app_state) : list ChatMessage :=
  default [] (chat_history (session st)).

Definition initialised (s : session_state) : session_state :=
  {| chat_history := Some (default [] (chat_history s));
     session_ended := Some (default false (session_ended s)) |}.

Definition user_entry (text : string) : ChatMessage :=
  {| chat_role := "user"; chat_message := JStr text |}.

Definition bot_entry (reply : json) : ChatMessage :=
  {| chat_role := "bot"; chat_message := reply |}.

(** The calls that display a history, and the calls of the form. *)
Definition render_history (entries : list ChatMessage) : list ui_call :=
  flat_map (fun chat => [StChatMessage (chat_role chat); StMarkdown (chat_message chat)])
           entries.

Definition form_calls : list ui_call :=
  [StForm "input_form";
   StTextInput "Enter your STEM-related question or attach a document..." "";
   StFileUploader "Attach a document" ["pdf"; "txt"] "collapsed";
   StFormSubmitButton "Submit"].

(** The requests among the effects. *)
Definition posts (tr : list event) : list request :=
  omap (fun ev => match ev with EvPost r => Some r | EvStError _ => None end) tr.

(** Lines 133-137 on their own: the five loads, in the order of the
    source. *)
Definition load_keyword_files
  : M (gset string * gset string * gset string * gset string * gset string) :=
  stem_keywords ← load_keywords (KEYWORD_DIR +:+ "stem_keywords.txt");
  greeting_keywords ← load_keywords (KEYWORD_DIR +:+ "greeting_keywords.txt");
  exit_keywords ← load_keywords (KEYWORD_DIR +:+ "exit_keywords.txt");
  appointment_keywords ← load_keywords (KEYWORD_DIR +:+ "appointment_keywords.txt");
  reschedule_keywords ← load_keywords (KEYWORD_DIR +:+ "reschedule_keywords.txt");
  mret (stem_keywords, greeting_keywords, exit_keywords,
        appointment_keywords, reschedule_keywords).

(** Lines 151-161 on their own: what [main] does with the values of the
    form once the page is built. *)
Definition main_submit (widgets : form_values)
    (stem_keywords greeting_keywords exit_keywords
     appointment_keywords reschedule_keywords : gset string) : App unit :=
  if form_submit_button widgets then
    match file_uploader widgets with
    | Some uploaded_file =>
        file_summary ← core (handle_file_upload uploaded_file);
        _ ← append_chat_history (user_entry ("Uploaded file: " +:+ name uploaded_file));
        append_chat_history (bot_entry file_summary)
    | None =>
        if PyStr.truthy (text_input widgets) then
          _ ← append_chat_history (user_entry (text_input widgets));
          bot_response ← core (stem_chatbot (text_input widgets) stem_keywords
                                 greeting_keywords exit_keywords
                                 appointment_keywords reschedule_keywords);
          append_chat_history (bot_entry bot_response)
        else mret tt
    end
  else mret tt.

(** The five keyword files [main] opens, in the order of lines 133-137. *)
Definition keyword_paths : list string :=
  map (String.append KEYWORD_DIR)
      ["stem_keywords.txt"; "greeting_keywords.txt"; "exit_keywords.txt";
       "appointment_keywords.txt"; "reschedule_keywords.txt"].

(** None of the five keyword files is unreadable: on them [open] fails
    only when the file is missing. *)
Definition keyword_files_open (w : world) : Prop :=
  forall filename e,
    In filename keyword_paths -> open_text w filename = Raise e -> e = FileNotFoundError.

(** What loading one keyword file that is readable or missing gives:
    its keywords, and the report when it is missing. *)
Definition loaded_keywords (w : world) (filename : string) : gset string :=
  match open_text w filename with
  | Return text => update_all ∅ text
  | Raise _ => ∅
  end.

Definition missing_report (w : world) (filename : string) : list string :=
  match open_text w filename with
  | Raise FileNotFoundError => ["Keyword file not found: " +:+ filename]
  | _ => []
  end.

(** The reports for the five keyword files, in order. *)
Definition missing_reports (w : world) : list string :=
  flat_map (missing_report w) keyword_paths.

(** The user did something: the form was submitted with a file or with
    a text. *)
Definition submitted (widgets : form_values) : bool :=
  (form_submit_button widgets &&
   (bool_decide (is_Some (file_uploader widgets)) || PyStr.truthy (text_input widgets)))%bool.

(** A computation is silent when it makes no request. *)
Definition silent {A} (m : M A) : Prop :=
  forall w tr, posts (snd (m w tr)) = posts tr.

(** Concrete runs of the page: a first run of a session, the two ways
    of submitting the form, and a world that has the STEM keyword file
    and a server. *)
Definition fresh_state : app_state :=
  {| session := {| chat_history := None; session_ended := None |};
     page := [];
     effects := [] |}.

Definition ask (text : string) : form_values :=
  {| text_input := text; file_uploader := None; form_submit_button := true |}.

Definition attach (text : string) (file : UploadedFile) : form_values :=
  {| text_input := text; file_uploader := Some file; form_submit_button := true |}.

Definition stem_world (answer : outcome response) : world :=
  {| getenv := getenv offline;
     open_text := fun f =>
       if String.eqb f (KEYWORD_DIR +:+ "stem_keywords.txt")
       then Return "biology, physics"
       else Raise FileNotFoundError;
     requests_post := fun _ => answer;
     PdfReader_pages := PdfReader_pages offline;
     decode_utf8 := decode_utf8 offline |}.

(** * Properties *)

(** ** Characters: facts checked on all 256 code points *)

Ltac by_cases_on_char c :=
  destruct c as [[] [] [] [] [] [] [] []]; vm_compute; reflexivity.

Lemma punctuation_is_ascii_punctuation (c : ascii) :
  PyStr.mem c PyStr.punctuation = is_ascii_punctuation c.
Proof. by_cases_on_char c. Qed.

Lemma lower_char_idempotent (c : ascii) :
  PyStr.lower_char (PyStr.lower_char c) = PyStr.lower_char c.
Proof. by_cases_on_char c. Qed.

Lemma lower_char_punctuation (c : ascii) :
  is_ascii_punctuation (PyStr.lower_char c) = is_ascii_punctuation c.
Proof. by_cases_on_char c. Qed.

Lemma lower_char_space (c : ascii) :
  PyStr.is_space (PyStr.lower_char c) = PyStr.is_space c.
Proof. by_cases_on_char c. Qed.

Lemma lower_char_not_ascii_upper (c : ascii) :
  PyStr.is_ascii_upper (PyStr.lower_char c) = false.
Proof. by_cases_on_char c. Qed.

Lemma space_survives_normalize (c : ascii) :
  PyStr.is_space c = true ->
  is_ascii_punctuation c = false /\ PyStr.lower_char c = c.
Proof.
  destruct c as [[] [] [] [] [] [] [] []]; vm_compute; intros H;
    first [discriminate H | split; reflexivity].
Qed.

(** ** Strings *)

Lemma append_nil (b : string) : "" +:+ b = b.
Proof. reflexivity. Qed.

Lemma append_cons (c : ascii) (a b : string) :
  String c a +:+ b = String c (a +:+ b).
Proof. reflexivity. Qed.

Lemma append_empty_r (s : string) : s +:+ "" = s.
Proof.
  induction s as [|c s IH]; [reflexivity |].
  now rewrite append_cons, IH.
Qed.

Lemma append_assoc (a b c : string) : (a +:+ b) +:+ c = a +:+ (b +:+ c).
Proof.
  induction a as [|x a IH]; [reflexivity |].
  now rewrite !append_cons, IH.
Qed.

Lemma startswith_spec (p s : string) :
  PyStr.startswith p s = true <-> exists post, s = p +:+ post.
Proof.
  revert s. induction p as [|a p IH]; intros s.
  - split; [intros _; now exists s | reflexivity].
  - destruct s as [|b s]; cbn [PyStr.startswith].
    + split; [discriminate | intros [post H]; discriminate H].
    + destruct (Ascii.eqb_spec a b) as [->|Hne].
      * rewrite IH. split; intros [post H]; exists post.
        -- now rewrite append_cons, H.
        -- rewrite append_cons in H. now inversion H.
      * split; [discriminate |].
        intros [post H]. rewrite append_cons in H. injection H as Hab _.
        symmetry in Hab. contradiction.
Qed.

Lemma contains_spec (k s : string) :
  PyStr.contains k s = true <-> substring_of k s.
Proof.
  unfold substring_of. induction s as [|c s IH].
  - cbn [PyStr.contains]. rewrite orb_false_r, startswith_spec. split.
    + intros [post H]. now exists "", post.
    + intros [pre [post H]]. destruct pre as [|d pre].
      * now exists post.
      * rewrite append_cons in H. discriminate H.
  - cbn [PyStr.contains]. rewrite orb_true_iff, startswith_spec, IH. split.
    + intros [[post H] | [pre [post H]]].
      * now exists "", post.
      * exists (String c pre), post. now rewrite append_cons, H.
    + intros [pre [post H]]. destruct pre as [|d pre].
      * left. now exists post.
      * right. rewrite append_cons in H. inversion H. now exists pre, post.
Qed.

Lemma clean_input_cons (c : ascii) (s : string) :
  clean_input (String c s) =
  if is_ascii_punctuation c then clean_input s
  else String (PyStr.lower_char c) (clean_input s).
Proof.
  unfold clean_input. cbn [PyStr.translate_delete].
  rewrite punctuation_is_ascii_punctuation.
  now destruct (is_ascii_punctuation c).
Qed.

Lemma clean_input_normalize (s : string) : clean_input s = spec_normalize s.
Proof.
  induction s as [|c s IH]; [reflexivity |].
  rewrite clean_input_cons. simpl. now rewrite IH.
Qed.

Lemma clean_input_append (a b : string) :
  clean_input (a +:+ b) = clean_input a +:+ clean_input b.
Proof.
  induction a as [|c a IH]; [reflexivity |].
  rewrite append_cons, !clean_input_cons.
  destruct (is_ascii_punctuation c); [exact IH |].
  now rewrite append_cons, IH.
Qed.

Lemma is_keyword_match_iff (s : string) (K : gset string) :
  is_keyword_match s K = true <->
  exists k, k ∈ K /\ PyStr.contains k (clean_input s) = true.
Proof.
  unfold is_keyword_match. cbv zeta. rewrite existsb_exists.
  split; intros [k [Hk Hc]]; exists k; split; try assumption.
  - apply elem_of_elements, list_elem_of_In, Hk.
  - apply list_elem_of_In, elem_of_elements, Hk.
Qed.

Lemma is_keyword_match_empty (s : string) : is_keyword_match s ∅ = false.
Proof.
  destruct (is_keyword_match s ∅) eqn:E; [|reflexivity].
  apply is_keyword_match_iff in E. destruct E as [k [Hk _]]. set_solver.
Qed.

(** C2.  The keyword match predicate holds exactly when the normalised
    input contains some member of the keyword set as a contiguous
    substring, where normalising removes every ASCII punctuation
    character and then lowercases; a whitespace character stays where it
    is, unchanged and uncollapsed. *)
Theorem is_keyword_match_substring (K : gset string) (s : string) :
  clean_input s = spec_normalize s
  /\ (is_keyword_match s K = true <->
      exists k, k ∈ K /\ substring_of k (spec_normalize s))
  /\ (forall a c b, PyStr.is_space c = true ->
        clean_input (a +:+ String c b) = clean_input a +:+ String c (clean_input b)).
Proof.
  split; [apply clean_input_normalize | split].
  - rewrite is_keyword_match_iff, <- clean_input_normalize.
    split; intros [k [Hk H]]; exists k; split; try assumption;
      now apply contains_spec.
  - intros a c b Hc. rewrite clean_input_append, clean_input_cons.
    destruct (space_survives_normalize c Hc) as [-> ->]. reflexivity.
Qed.

(** C10.  Normalising is idempotent. *)
Theorem clean_input_idempotent (s : string) :
  clean_input (clean_input s) = clean_input s.
Proof.
  induction s as [|c s IH]; [reflexivity |].
  rewrite clean_input_cons.
  destruct (is_ascii_punctuation c) eqn:E; [exact IH |].
  rewrite clean_input_cons, lower_char_punctuation, E,
    lower_char_idempotent, IH.
  reflexivity.
Qed.

(** ** Trimming and lowercasing *)

Lemma lstrip_no_leading_space (s : string) :
  has_leading_space (PyStr.lstrip s) = false.
Proof.
  induction s as [|c s IH]; [reflexivity |].
  cbn [PyStr.lstrip]. destruct (PyStr.is_space c) eqn:E; [exact IH |].
  unfold has_leading_space. simpl. exact E.
Qed.

Lemma rstrip_cons (c : ascii) (s : string) :
  PyStr.rstrip (String c s) = EmptyString \/
  exists r, PyStr.rstrip (String c s) = String c r.
Proof.
  cbn [PyStr.rstrip]. destruct (PyStr.rstrip s).
  - destruct (PyStr.is_space c); [now left | right; now exists ""].
  - right. eauto.
Qed.

Lemma rstrip_no_trailing_space (s : string) :
  has_trailing_space (PyStr.rstrip s) = false.
Proof.
  unfold has_trailing_space.
  induction s as [|c s IH]; [reflexivity |].
  cbn [PyStr.rstrip]. destruct (PyStr.rstrip s) as [|d r] eqn:E.
  - destruct (PyStr.is_space c) eqn:Ec; simpl; [reflexivity | exact Ec].
  - exact IH.
Qed.

Lemma rstrip_keeps_first (s : string) :
  PyStr.rstrip s <> EmptyString -> first_char (PyStr.rstrip s) = first_char s.
Proof.
  destruct s as [|c s]; [reflexivity |].
  destruct (rstrip_cons c s) as [-> | [r ->]]; [congruence | reflexivity].
Qed.

Lemma strip_ends (s : string) :
  PyStr.strip s <> EmptyString ->
  has_leading_space (PyStr.strip s) = false /\
  has_trailing_space (PyStr.strip s) = false.
Proof.
  unfold PyStr.strip. intros Hne. split.
  - unfold has_leading_space. rewrite rstrip_keeps_first by assumption.
    apply lstrip_no_leading_space.
  - apply rstrip_no_trailing_space.
Qed.

Lemma first_char_lower (s : string) :
  first_char (PyStr.lower s) = PyStr.lower_char <$> first_char s.
Proof. destruct s; reflexivity. Qed.

Lemma last_char_lower (s : string) :
  last_char (PyStr.lower s) = PyStr.lower_char <$> last_char s.
Proof.
  induction s as [|c s IH]; [reflexivity |].
  destruct s as [|d s]; [reflexivity |]. exact IH.
Qed.

Lemma space_at_lower (o : option ascii) :
  space_at (PyStr.lower_char <$> o) = space_at o.
Proof. destruct o as [c|]; [apply lower_char_space | reflexivity]. Qed.

Lemma lower_no_ascii_upper (s : string) : has_ascii_upper (PyStr.lower s) = false.
Proof.
  induction s as [|c s IH]; [reflexivity |].
  simpl. now rewrite lower_char_not_ascii_upper, IH.
Qed.

Lemma truthy_not_empty (s : string) : PyStr.truthy s = true <-> s <> EmptyString.
Proof. destruct s; simpl; split; congruence. Qed.

(** What one token of a line becomes, when it is kept. *)
Lemma keyword_shape (token : string) :
  PyStr.truthy (PyStr.strip token) = true ->
  let k := PyStr.lower (PyStr.strip token) in
  k <> EmptyString /\ has_leading_space k = false /\
  has_trailing_space k = false /\ has_ascii_upper k = false.
Proof.
  intros Ht k. subst k. apply truthy_not_empty in Ht.
  destruct (strip_ends token Ht) as [Hl Hr].
  repeat split.
  - destruct (PyStr.strip token); [congruence | discriminate].
  - unfold has_leading_space in *. now rewrite first_char_lower, space_at_lower.
  - unfold has_trailing_space in *. now rewrite last_char_lower, space_at_lower.
  - apply lower_no_ascii_upper.
Qed.

(** ** The keyword loader *)

Lemma elem_of_line_keywords (k line : string) :
  k ∈ line_keywords line ->
  exists token, k = PyStr.lower (PyStr.strip token) /\
                PyStr.truthy (PyStr.strip token) = true.
Proof.
  unfold line_keywords. intros H. apply list_elem_of_In, in_map_iff in H.
  destruct H as [token [<- Hin]]. apply filter_In in Hin.
  exists token. now split.
Qed.

Lemma elem_of_update_all (k : string) (text : string) (keywords : gset string) :
  k ∈ update_all keywords text ->
  k ∈ keywords \/ exists line, k ∈ line_keywords line.
Proof.
  unfold update_all. generalize (PyStr.lines text). intros ls.
  revert keywords. induction ls as [|l ls IH]; intros keywords H.
  - now left.
  - simpl in H. apply IH in H. destruct H as [H | H]; [| now right].
    apply elem_of_union in H. destruct H as [H | H]; [now left |].
    right. exists l. now apply elem_of_list_to_set in H.
Qed.

Lemma load_keywords_eval (filename : string) (w : world) (tr : list event) :
  load_keywords filename w tr =
  match open_text w filename with
  | Return text => (Return (update_all ∅ text), tr)
  | Raise FileNotFoundError =>
      (Return ∅, (tr ++ [EvStError ("Keyword file not found: " +:+ filename)])%list)
  | Raise e => (Raise e, tr)
  end.
Proof.
  unfold load_keywords, try_except, mbind, M_bind, bind, open_read.
  destruct (open_text w filename) as [text | e]; [reflexivity |].
  destruct e; reflexivity.
Qed.

(** C9.  Every keyword of a loaded set is a non-empty string without
    whitespace at either end and without uppercase ASCII letters; the
    empty string is never a member. *)
Theorem load_keywords_members (filename : string) (w : world) (tr tr' : list event)
    (K : gset string) (k : string) :
  load_keywords filename w tr = (Return K, tr') ->
  k ∈ K ->
  k <> EmptyString /\ has_leading_space k = false /\
  has_trailing_space k = false /\ has_ascii_upper k = false.
Proof.
  rewrite load_keywords_eval. intros Hload Hk.
  assert (Hin : k ∈ update_all ∅ "" \/ exists line, k ∈ line_keywords line).
  { destruct (open_text w filename) as [text | e].
    - injection Hload as <- _. apply elem_of_update_all in Hk.
      destruct Hk as [Hk | Hk]; [set_solver | now right].
    - destruct e; try discriminate Hload. injection Hload as <- _. set_solver. }
  destruct Hin as [Hin | [line Hin]]; [set_solver |].
  apply elem_of_line_keywords in Hin. destruct Hin as [token [-> Ht]].
  now apply keyword_shape.
Qed.

(** C5, in the form that holds.  When the keyword source does not exist, the loader
    does not raise: it reports the error on the page and returns the
    empty set, which matches no input. *)
Theorem load_keywords_missing_file (filename : string) (w : world) (tr : list event) :
  open_text w filename = Raise FileNotFoundError ->
  exists K,
    load_keywords filename w tr =
      (Return K, (tr ++ [EvStError ("Keyword file not found: " +:+ filename)])%list)
    /\ K = ∅
    /\ forall user_input, is_keyword_match user_input K = false.
Proof.
  intros Hopen. exists ∅. rewrite load_keywords_eval, Hopen.
  split; [reflexivity | split; [reflexivity |]].
  apply is_keyword_match_empty.
Qed.

(** ** The model client *)

Ltac run_client :=
  unfold call_llama_api, try_except, mbind, M_bind, bind, os_getenv, post,
    raise_for_status, response_json, lift, py_get, py_item0, mret, M_ret, ret, raise.

Lemma call_llama_api_network_fault (prompt : string) (w : world) (tr : list event)
    (e : exn) :
  requests_post w (chat_request (getenv w "OLLAMA_API_KEY") prompt) = Raise e ->
  call_llama_api prompt w tr =
  (if is_RequestException e then Return (JStr ("API error: " +:+ str_exn e)) else Raise e,
   (tr ++ [EvPost (chat_request (getenv w "OLLAMA_API_KEY") prompt)])%list).
Proof.
  intros H. run_client. unfold chat_request in H. rewrite H.
  destruct e; reflexivity.
Qed.

Lemma call_llama_api_error_status (prompt : string) (w : world) (tr : list event)
    (r : response) :
  requests_post w (chat_request (getenv w "OLLAMA_API_KEY") prompt) = Return r ->
  (400 <= status_code r < 600)%Z ->
  call_llama_api prompt w tr =
  (Return (JStr ("API error: " +:+ http_error_text r)),
   (tr ++ [EvPost (chat_request (getenv w "OLLAMA_API_KEY") prompt)])%list).
Proof.
  intros H Hs. run_client. unfold chat_request in H. rewrite H.
  unfold http_error_text.
  destruct (Z.leb 400 (status_code r) && Z.ltb (status_code r) 500)%bool eqn:E4.
  - apply andb_true_iff in E4. destruct E4 as [_ E4]. now rewrite E4.
  - destruct (Z.leb 500 (status_code r) && Z.ltb (status_code r) 600)%bool eqn:E5.
    + assert (E : Z.ltb (status_code r) 500 = false).
      { apply andb_true_iff in E5. apply Z.ltb_ge. lia. }
      now rewrite E.
    + exfalso. apply andb_false_iff in E4, E5. lia.
Qed.

(** C3, in the form that holds.  On a fault of the HTTP exchange the
    model client does not raise: after its one request it returns the
    text "API error: " followed by the description of the fault, a
    string as on the success path.  The description is [str(e)] for an
    exception [e] of the HTTP library, and for an error status 4xx or
    5xx the text of the [HTTPError] of [raise_for_status]. *)
Theorem call_llama_api_fault_is_text (prompt : string) (w : world) (tr : list event)
    (description : string) :
  http_fault (requests_post w (chat_request (getenv w "OLLAMA_API_KEY") prompt))
             description ->
  call_llama_api prompt w tr =
  (Return (JStr ("API error: " +:+ description)),
   (tr ++ [EvPost (chat_request (getenv w "OLLAMA_API_KEY") prompt)])%list).
Proof.
  intros [H | [r (H & Hs & ->)]].
  - now rewrite (call_llama_api_network_fault _ _ _ _ H).
  - now apply call_llama_api_error_status.
Qed.

Lemma quiet_ret {A} (a : A) : quiet (mret a).
Proof. intros w tr. reflexivity. Qed.

Lemma quiet_raise {A} (e : exn) : quiet (@raise A e).
Proof. intros w tr. reflexivity. Qed.

Lemma quiet_bind {A B} (m : M A) (k : A -> M B) :
  quiet m -> (forall a, quiet (k a)) -> quiet (m ≫= k).
Proof.
  intros Hm Hk w tr. unfold mbind, M_bind, bind.
  specialize (Hm w tr). destruct (m w tr) as [[a | e] tr1]; simpl in Hm; subst tr1.
  - apply Hk.
  - reflexivity.
Qed.

Lemma quiet_py_get (obj : json) (key : string) (default : json) :
  quiet (py_get obj key default).
Proof. destruct obj; intros w tr; reflexivity. Qed.

Lemma quiet_py_item0 (obj : json) : quiet (py_item0 obj).
Proof.
  destruct obj as [| | | [|c s] | [|x items] |]; intros w tr; reflexivity.
Qed.

Lemma quiet_raise_for_status (r : response) : quiet (raise_for_status r).
Proof.
  unfold raise_for_status. intros w tr.
  destruct (_ && _)%bool; [reflexivity |].
  destruct (_ && _)%bool; reflexivity.
Qed.

Lemma quiet_response_json (r : response) : quiet (response_json r).
Proof. intros w tr. reflexivity. Qed.

Create HintDb quiet.

#[local] Hint Resolve quiet_ret quiet_raise quiet_py_get quiet_py_item0
  quiet_raise_for_status quiet_response_json : quiet.

(** The client makes exactly one request, whatever comes back. *)
Lemma call_llama_api_posts_once (prompt : string) (w : world) (tr : list event) :
  snd (call_llama_api prompt w tr) =
  (tr ++ [EvPost (chat_request (getenv w "OLLAMA_API_KEY") prompt)])%list.
Proof.
  unfold call_llama_api, os_getenv, try_except.
  unfold mbind at 1, M_bind at 1, bind at 1. cbv beta iota.
  unfold mbind at 1, M_bind at 1, bind at 1, post. cbv beta iota.
  fold (chat_request (getenv w "OLLAMA_API_KEY") prompt).
  destruct (requests_post w _) as [r | e]; cbv beta iota.
  - match goal with
    | |- snd (match ?m w ?t with _ => _ end) = _ =>
        assert (Hq : quiet m)
          by (repeat (apply quiet_bind; [auto with quiet | intros ?]); auto with quiet);
        specialize (Hq w t); destruct (m w t) as [[a | e] t1]
    end; simpl in Hq; subst t1; [reflexivity |].
    destruct (is_RequestException e); reflexivity.
  - destruct (is_RequestException e); reflexivity.
Qed.

(** C4, at the failing input.  A 200 response whose body is
    [{"choices": []}] makes the client raise [IndexError]: the default
    of [get] is not used for a key that is present, and [[][0]] fails. *)
Theorem call_llama_api_empty_choices_raises (prompt : string) (tr : list event) :
  call_llama_api prompt (with_server (Return (ok_response empty_choices_body))) tr =
  (Raise IndexError, (tr ++ [EvPost (chat_request None prompt)])%list).
Proof. reflexivity. Qed.

(** The absent shapes the defaults do cover: no [choices] key, a first
    choice without [message], a message without [content]. *)
Lemma call_llama_api_missing_key_placeholder (prompt : string) (tr : list event)
    (body : json) :
  body = JObj [] \/ body = JObj [("choices", JArr [JObj []])] \/
  body = JObj [("choices", JArr [JObj [("message", JObj [])]])] ->
  call_llama_api prompt (with_server (Return (ok_response body))) tr =
  (Return (JStr NO_RESPONSE), (tr ++ [EvPost (chat_request None prompt)])%list).
Proof. intros [-> | [-> | ->]]; reflexivity. Qed.

(** C3 as stated fails twice.  A status outside 2xx that is no error
    status (300) is handled as a success: the reply is returned, not an
    "API error: " text.  And the client can raise: [IndexError] on a 200
    response with an empty [choices] array. *)
Lemma call_llama_api_status_300_or_raise :
  let multiple_choices :=
    {| status_code := 300; reason := "Multiple Choices";
       response_url := "http://localhost:11434/v1/chat/completions";
       json_body := Return (reply_body "Hi") |} in
  (call_llama_api "hello" (with_server (Return multiple_choices)) [] =
     (Return (JStr "Hi"), [EvPost (chat_request None "hello")])
   /\ PyStr.startswith "API error: " "Hi" = false)
  /\ call_llama_api "hello" (with_server (Return (ok_response empty_choices_body))) [] =
     (Raise IndexError, [EvPost (chat_request None "hello")]).
Proof. repeat split. Qed.

(** C5 as stated fails for a source that exists and cannot be read:
    [PermissionError] is not [FileNotFoundError] and reaches the caller. *)
Lemma load_keywords_permission_denied_raises :
  load_keywords "stem_keywords.txt"
    (with_file "stem_keywords.txt" (Raise PermissionError)) [] =
  (Raise PermissionError, []).
Proof. reflexivity. Qed.

(** ** Documents *)

Lemma pages_loop (texts : list string) :
  forall (before : list (outcome string)) (text : string) (w : world) (tr : list event),
    for_each (seq (length before) (length texts))
      (fun text page_num =>
         match (before ++ map Return texts)%list !! page_num with
         | Some page => t ← lift page; mret (text +:+ t)
         | None => raise IndexError
         end)
      text w tr
    = (Return (text +:+ join_pages texts), tr).
Proof.
  induction texts as [|t texts IH]; intros before text w tr.
  - simpl. unfold mret, M_ret, ret. now rewrite append_empty_r.
  - cbn [length seq for_each map].
    unfold mbind at 1, M_bind at 1, bind at 1.
    rewrite list_lookup_middle by reflexivity.
    unfold mbind at 1, M_bind at 1, bind at 1, lift, mret, M_ret, ret.
    cbv beta iota.
    specialize (IH (before ++ [Return t])%list (text +:+ t) w tr).
    rewrite length_app, <- app_assoc in IH. simpl in IH.
    rewrite Nat.add_1_r in IH. refine (eq_trans IH _).
    simpl. now rewrite append_assoc.
Qed.

(** C7.  When the PDF opens as pages whose texts all extract, the
    extractor returns these texts joined in page order with nothing
    between them. *)
Theorem extract_pdf_text_concatenates (file : UploadedFile) (w : world)
    (tr : list event) (texts : list string) :
  PdfReader_pages w (read file) = Return (map Return texts) ->
  extract_pdf_text file w tr = (Return (join_pages texts), tr).
Proof.
  intros H. unfold extract_pdf_text.
  unfold mbind at 1, M_bind at 1, bind at 1. rewrite H. cbv beta iota.
  rewrite length_map.
  exact (pages_loop texts [] "" w tr).
Qed.

(** C8.  A declared media type that is neither "application/pdf" nor
    "text/plain" gets the fixed unsupported-type message, and the trace
    is unchanged: no request is made. *)
Theorem handle_file_upload_unsupported (uploaded_file : UploadedFile) (w : world)
    (tr : list event) :
  type uploaded_file <> "application/pdf" ->
  type uploaded_file <> "text/plain" ->
  handle_file_upload uploaded_file w tr = (Return (JStr UNSUPPORTED), tr).
Proof.
  intros Hpdf Htxt. unfold handle_file_upload.
  apply String.eqb_neq in Hpdf, Htxt. now rewrite Hpdf, Htxt.
Qed.

(** ** The chatbot *)

Ltac by_cases_on_matches :=
  unfold stem_chatbot, spec_classify, none_match,
    is_greeting_query, is_reschedule_query, is_appointment_query,
    is_stem_query, is_exit_query;
  cbn [find snd].

(** The if-chain is the specification's classifier followed by its
    routing table. *)
Lemma stem_chatbot_routes (user_input : string)
    (stem greeting exit appointment reschedule : gset string) :
  stem_chatbot user_input stem greeting exit appointment reschedule =
  spec_route (spec_classify user_input greeting reschedule appointment stem exit)
             user_input.
Proof.
  by_cases_on_matches.
  destruct (is_keyword_match user_input greeting); [reflexivity |].
  destruct (is_keyword_match user_input reschedule); [reflexivity |].
  destruct (is_keyword_match user_input appointment); [reflexivity |].
  destruct (is_keyword_match user_input stem); [reflexivity |].
  destruct (is_keyword_match user_input exit); reflexivity.
Qed.

Lemma classify_unknown_iff (user_input : string)
    (stem greeting exit appointment reschedule : gset string) :
  spec_classify user_input greeting reschedule appointment stem exit = Unknown <->
  none_match user_input greeting reschedule appointment stem exit.
Proof.
  by_cases_on_matches.
  destruct (is_keyword_match user_input greeting);
    [split; [discriminate | intros [H _]; discriminate H] |].
  destruct (is_keyword_match user_input reschedule);
    [split; [discriminate | intros (_ & H & _); discriminate H] |].
  destruct (is_keyword_match user_input appointment);
    [split; [discriminate | intros (_ & _ & H & _); discriminate H] |].
  destruct (is_keyword_match user_input stem);
    [split; [discriminate | intros (_ & _ & _ & H & _); discriminate H] |].
  destruct (is_keyword_match user_input exit);
    [split; [discriminate | intros (_ & _ & _ & _ & H); discriminate H] |].
  split; [intros _; repeat split | reflexivity].
Qed.

Lemma canned_reply_not_fallback (intent : Intent) (user_input : string)
    (w : world) (tr tr' : list event) :
  spec_route intent user_input w tr = (Return (JStr FALLBACK_REPLY), tr') ->
  intent = Unknown \/ intent = StemQuestion.
Proof.
  destruct intent; intros H; try (now left); try (now right);
    vm_compute in H; discriminate H.
Qed.

(** C1.  The response is the routing of the first matching category in
    the order Greeting, Reschedule, Appointment, StemQuestion, Exit,
    however many sets match and wherever their keywords stand; and the
    fixed fallback text is returned exactly when none of the five sets
    match: in each world taken alone, as the chatbot's own answer (the
    world left as it was), and as the answer in every world. *)
Theorem stem_chatbot_first_match (user_input : string)
    (stem greeting exit appointment reschedule : gset string) :
  let intent := spec_classify user_input greeting reschedule appointment stem exit in
  let nothing := none_match user_input greeting reschedule appointment stem exit in
  stem_chatbot user_input stem greeting exit appointment reschedule =
    spec_route intent user_input
  /\ (intent = Unknown <-> nothing)
  /\ (forall w tr,
        stem_chatbot user_input stem greeting exit appointment reschedule w tr =
          (Return (JStr FALLBACK_REPLY), tr)
        <-> nothing)
  /\ ((forall w tr,
         fst (stem_chatbot user_input stem greeting exit appointment reschedule w tr) =
           Return (JStr FALLBACK_REPLY))
      <-> nothing).
Proof.
  intros intent nothing. subst intent nothing.
  split; [apply stem_chatbot_routes |].
  split; [apply classify_unknown_iff |].
  rewrite stem_chatbot_routes.
  split.
  - intros w tr. split.
    + intros H. apply classify_unknown_iff.
      destruct (canned_reply_not_fallback _ _ _ _ _ H) as [E | E];
        [exact E | exfalso].
      rewrite E in H. apply (f_equal snd) in H.
      rewrite call_llama_api_posts_once in H.
      apply (f_equal (@length event)) in H.
      rewrite length_app in H. simpl in H. lia.
    + intros H. apply classify_unknown_iff in H. now rewrite H.
  - split.
    + intros H. apply classify_unknown_iff. specialize (H offline []).
      destruct (spec_classify user_input greeting reschedule appointment stem exit);
        try reflexivity; exfalso; cbn [spec_route] in H;
        try rewrite (call_llama_api_network_fault user_input offline []
                       (RequestException "Connection refused") eq_refl) in H;
        vm_compute in H; discriminate H.
    + intros H. apply classify_unknown_iff in H. now rewrite H.
Qed.

(** C6.  An input classified as StemQuestion is handed to the model
    client as it was typed: the one request made carries the raw input
    as the content of its single user message, and the chatbot's outcome
    is the client's outcome. *)
Theorem stem_question_forwards_raw_input (user_input : string)
    (stem greeting exit appointment reschedule : gset string)
    (w : world) (tr : list event) :
  spec_classify user_input greeting reschedule appointment stem exit = StemQuestion ->
  let sent := chat_request (getenv w "OLLAMA_API_KEY") user_input in
  stem_chatbot user_input stem greeting exit appointment reschedule w tr =
    call_llama_api user_input w tr
  /\ snd (call_llama_api user_input w tr) = (tr ++ [EvPost sent])%list
  /\ json_messages sent = [{| role := "user"; content := user_input |}].
Proof.
  intros H sent. rewrite stem_chatbot_routes, H.
  split; [reflexivity | split; [apply call_llama_api_posts_once | reflexivity]].
Qed.

(** ** The scenarios of the specification, as instances *)

Lemma stem_chatbot_first_match_witness :
  stem_chatbot "I want to reschedule my appointment"
    stem_set greeting_set exit_set appointment_set reschedule_set offline [] =
    (Return (JStr RESCHEDULE_REPLY), [])
  /\ none_match "asdkjasd" greeting_set reschedule_set appointment_set stem_set exit_set
  /\ stem_chatbot "asdkjasd"
       stem_set greeting_set exit_set appointment_set reschedule_set offline [] =
     (Return (JStr FALLBACK_REPLY), []).
Proof.
  split.
  - pose proof (stem_chatbot_first_match "I want to reschedule my appointment"
                  stem_set greeting_set exit_set appointment_set reschedule_set) as H.
    cbv zeta in H. destruct H as [H _]. rewrite H. vm_compute. reflexivity.
  - pose proof (stem_chatbot_first_match "asdkjasd"
                  stem_set greeting_set exit_set appointment_set reschedule_set) as H.
    cbv zeta in H. destruct H as (_ & _ & H & _).
    assert (Hn : none_match "asdkjasd" greeting_set reschedule_set appointment_set
                   stem_set exit_set) by (vm_compute; repeat split).
    split; [exact Hn | exact (proj2 (H offline []) Hn)].
Defined.

Lemma is_keyword_match_substring_witness :
  is_keyword_match "Hi there!" greeting_set = true
  /\ clean_input ("Hi" +:+ String " " "there!") = clean_input "Hi" +:+ String " " (clean_input "there!").
Proof.
  destruct (is_keyword_match_substring greeting_set "Hi there!") as (_ & Hiff & _).
  destruct (is_keyword_match_substring greeting_set "") as (_ & _ & Hspace).
  split.
  - apply Hiff. exists "hi". split.
    + vm_compute. reflexivity.
    + exists "", " there". vm_compute. reflexivity.
  - apply Hspace. vm_compute. reflexivity.
Defined.

Lemma call_llama_api_fault_is_text_witness :
  call_llama_api "What is DNA?" (with_server (Return not_found_response)) [] =
  (Return
     (JStr ("API error: " +:+
            "404 Client Error: Not Found for url: http://localhost:11434/v1/chat/completions")),
   [EvPost (chat_request None "What is DNA?")]).
Proof.
  apply (call_llama_api_fault_is_text "What is DNA?"
           (with_server (Return not_found_response)) []).
  right. exists not_found_response.
  split; [reflexivity | split; [simpl; lia | reflexivity]].
Defined.

Lemma load_keywords_missing_file_witness :
  exists K,
    load_keywords "exit_keywords.txt" offline [] =
      (Return K, [EvStError "Keyword file not found: exit_keywords.txt"])
    /\ K = ∅
    /\ forall user_input, is_keyword_match user_input K = false.
Proof.
  apply (load_keywords_missing_file "exit_keywords.txt" offline []).
  reflexivity.
Defined.

Lemma stem_question_forwards_raw_input_witness :
  stem_chatbot "I have a question about biology"
    stem_set greeting_set exit_set appointment_set reschedule_set offline [] =
  call_llama_api "I have a question about biology" offline [].
Proof.
  apply (stem_question_forwards_raw_input "I have a question about biology"
           stem_set greeting_set exit_set appointment_set reschedule_set offline []).
  vm_compute. reflexivity.
Defined.

Lemma extract_pdf_text_concatenates_witness :
  extract_pdf_text {| type := "application/pdf"; name := "two.pdf"; read := [] |}
    (with_pdf [Return "A"; Return "B"]) [] = (Return "AB", []).
Proof.
  apply (extract_pdf_text_concatenates
           {| type := "application/pdf"; name := "two.pdf"; read := [] |}
           (with_pdf [Return "A"; Return "B"]) [] ["A"; "B"]).
  reflexivity.
Defined.

Lemma handle_file_upload_unsupported_witness :
  handle_file_upload {| type := "image/png"; name := "logo.png"; read := [] |}
    offline [] = (Return (JStr UNSUPPORTED), []).
Proof.
  apply (handle_file_upload_unsupported
           {| type := "image/png"; name := "logo.png"; read := [] |} offline []);
    discriminate.
Defined.

Lemma load_keywords_members_witness :
  let k := "good morning" in
  k <> EmptyString /\ has_leading_space k = false /\
  has_trailing_space k = false /\ has_ascii_upper k = false.
Proof.
  apply (load_keywords_members "greeting_keywords.txt"
           (with_file "greeting_keywords.txt" (Return keyword_file)) [] []
           (update_all ∅ keyword_file) "good morning").
  - reflexivity.
  - vm_compute. reflexivity.
Defined.

(** * Further properties of the code *)

(** ** Keyword matching *)

Lemma clean_input_chars (s : string) :
  any_char never_in_clean_input (clean_input s) = false.
Proof.
  induction s as [|c s IH]; [reflexivity |].
  rewrite clean_input_cons. destruct (is_ascii_punctuation c) eqn:E; [exact IH |].
  cbn [any_char]. unfold never_in_clean_input at 1.
  now rewrite lower_char_punctuation, E, lower_char_not_ascii_upper, IH.
Qed.

Lemma clean_input_lower (s : string) : clean_input (PyStr.lower s) = clean_input s.
Proof.
  induction s as [|c s IH]; [reflexivity |].
  cbn [PyStr.lower]. rewrite !clean_input_cons, lower_char_punctuation.
  destruct (is_ascii_punctuation c); [exact IH |].
  now rewrite lower_char_idempotent, IH.
Qed.

Lemma is_keyword_match_same_clean (s t : string) (K : gset string) :
  clean_input s = clean_input t -> is_keyword_match s K = is_keyword_match t K.
Proof. unfold is_keyword_match. cbv zeta. now intros ->. Qed.

Lemma any_char_append (p : ascii -> bool) (a b : string) :
  any_char p (a +:+ b) = (any_char p a || any_char p b)%bool.
Proof.
  induction a as [|c a IH]; [reflexivity |].
  rewrite append_cons. cbn [any_char]. now rewrite IH, orb_assoc.
Qed.

(** The keyword match is insensitive to case: lowercasing the input
    changes nothing. *)
Theorem is_keyword_match_case_insensitive (K : gset string) (s : string) :
  is_keyword_match (PyStr.lower s) K = is_keyword_match s K.
Proof. apply is_keyword_match_same_clean, clean_input_lower. Qed.

(** The keyword match ignores ASCII punctuation wherever it stands.
    Punctuation is deleted, not replaced by a space, so the text on its
    two sides is joined before matching. *)
Theorem is_keyword_match_ignores_punctuation (K : gset string) (a b : string) (c : ascii) :
  is_ascii_punctuation c = true ->
  is_keyword_match (a +:+ String c b) K = is_keyword_match (a +:+ b) K.
Proof.
  intros Hc. apply is_keyword_match_same_clean.
  now rewrite !clean_input_append, clean_input_cons, Hc.
Qed.

Lemma is_keyword_match_ignores_punctuation_witness :
  is_keyword_match ("hel" +:+ String "-" "lo") greeting_set =
  is_keyword_match ("hel" +:+ "lo") greeting_set.
Proof.
  apply (is_keyword_match_ignores_punctuation greeting_set "hel" "lo" "-").
  reflexivity.
Defined.

(** Matching against a union of keyword sets is matching against one of
    them. *)
Theorem is_keyword_match_union (s : string) (K1 K2 : gset string) :
  is_keyword_match s (K1 ∪ K2) = (is_keyword_match s K1 || is_keyword_match s K2)%bool.
Proof.
  apply eq_true_iff_eq.
  rewrite orb_true_iff, !is_keyword_match_iff. split.
  - intros [k [Hk Hc]]. apply elem_of_union in Hk.
    destruct Hk as [Hk | Hk]; [left | right]; exists k; now split.
  - intros [[k [Hk Hc]] | [k [Hk Hc]]]; exists k; split; try assumption;
      apply elem_of_union; [now left | now right].
Qed.

(** A keyword that contains an ASCII punctuation character or an ASCII
    uppercase letter A-Z occurs in no normalised text: a set made of
    such keywords matches no input at all. *)
Theorem is_keyword_match_unmatchable (K : gset string) (s : string) :
  (forall k, k ∈ K -> any_char never_in_clean_input k = true) ->
  is_keyword_match s K = false.
Proof.
  intros HK. destruct (is_keyword_match s K) eqn:E; [| reflexivity].
  apply is_keyword_match_iff in E. destruct E as [k [Hk Hc]].
  apply contains_spec in Hc. destruct Hc as [pre [post Hc]].
  pose proof (clean_input_chars s) as Hs.
  rewrite Hc, !any_char_append, (HK k Hk) in Hs.
  rewrite orb_true_l, orb_true_r in Hs. discriminate Hs.
Qed.

Lemma is_keyword_match_unmatchable_witness :
  is_keyword_match "Please send me an e-mail" {["e-mail"]} = false.
Proof.
  apply (is_keyword_match_unmatchable {["e-mail"]} "Please send me an e-mail").
  intros k Hk. apply elem_of_singleton in Hk. subst k. reflexivity.
Defined.

(** An input that normalises to the empty text (empty, or punctuation
    only) matches a set exactly when the set holds the empty keyword. *)
Theorem is_keyword_match_blank_input (K : gset string) (s : string) :
  clean_input s = EmptyString ->
  (is_keyword_match s K = true <-> EmptyString ∈ K).
Proof.
  intros Hs. rewrite is_keyword_match_iff, Hs. split.
  - intros [k [Hk Hc]]. destruct k; [exact Hk | discriminate Hc].
  - intros Hk. exists "". now split.
Qed.

Lemma is_keyword_match_blank_input_witness :
  is_keyword_match "?!" greeting_set = true <-> EmptyString ∈ greeting_set.
Proof.
  apply (is_keyword_match_blank_input greeting_set "?!"). reflexivity.
Defined.

(** An input matches as soon as some part of it normalises to a keyword
    of the set, whatever stands before and after that part. *)
Theorem is_keyword_match_occurrence (K : gset string) (k pre part post : string) :
  k ∈ K -> clean_input part = k ->
  is_keyword_match (pre +:+ part +:+ post) K = true.
Proof.
  intros Hk Hpart. apply is_keyword_match_iff. exists k. split; [exact Hk |].
  apply contains_spec. exists (clean_input pre), (clean_input post).
  now rewrite !clean_input_append, Hpart.
Qed.

Lemma is_keyword_match_occurrence_witness :
  is_keyword_match ("Oh, " +:+ "HELLO!" +:+ " anyone?") greeting_set = true.
Proof.
  apply (is_keyword_match_occurrence greeting_set "hello" "Oh, " "HELLO!" " anyone?").
  - vm_compute. reflexivity.
  - reflexivity.
Defined.

(** ** The keyword loader *)

Lemma elem_of_update_all_iff (k : string) (text : string) (keywords : gset string) :
  k ∈ update_all keywords text <->
  k ∈ keywords \/ exists line, In line (PyStr.lines text) /\ k ∈ line_keywords line.
Proof.
  unfold update_all. generalize (PyStr.lines text). intros ls.
  revert keywords. induction ls as [|l ls IH]; intros keywords.
  - simpl. split; [now left | intros [H | [line [[] _]]]; exact H].
  - cbn [foldl]. rewrite IH, elem_of_union, elem_of_list_to_set. split.
    + intros [[H | H] | [line [Hin H]]].
      * now left.
      * right. exists l. split; [now left | exact H].
      * right. exists line. split; [now right | exact H].
    + intros [H | [line [[-> | Hin] H]]].
      * left. now left.
      * left. now right.
      * right. now exists line.
Qed.

Lemma elem_of_line_keywords_iff (k line : string) :
  k ∈ line_keywords line <->
  exists token, In token (PyStr.split "," line) /\
                PyStr.strip token <> EmptyString /\
                k = PyStr.lower (PyStr.strip token).
Proof.
  unfold line_keywords. rewrite list_elem_of_In, in_map_iff. split.
  - intros [token [<- Hin]]. apply filter_In in Hin. destruct Hin as [Hin Ht].
    exists token. repeat split; [exact Hin | now apply truthy_not_empty].
  - intros [token (Hin & Ht & ->)]. exists token. split; [reflexivity |].
    apply filter_In. split; [exact Hin | now apply truthy_not_empty].
Qed.

(** For a file that can be read the loader returns, without any effect,
    exactly the set of the trimmed and lowercased tokens: a string is a
    member if and only if it comes from a token between commas on some
    line whose trimmed form is not empty. *)
Theorem load_keywords_exact (filename text : string) (w : world) (tr : list event) :
  open_text w filename = Return text ->
  exists K,
    load_keywords filename w tr = (Return K, tr)
    /\ forall k,
         k ∈ K <->
         exists line token,
           In line (PyStr.lines text) /\ In token (PyStr.split "," line) /\
           PyStr.strip token <> EmptyString /\ k = PyStr.lower (PyStr.strip token).
Proof.
  intros Hopen. exists (update_all ∅ text).
  rewrite load_keywords_eval, Hopen. split; [reflexivity |].
  intros k. rewrite elem_of_update_all_iff. split.
  - intros [H | [line [Hin H]]]; [set_solver |].
    apply elem_of_line_keywords_iff in H. destruct H as [token H].
    now exists line, token.
  - intros [line [token [Hin H]]]. right. exists line. split; [exact Hin |].
    apply elem_of_line_keywords_iff. now exists token.
Qed.

Lemma load_keywords_exact_witness :
  exists K,
    load_keywords "greeting_keywords.txt"
      (with_file "greeting_keywords.txt" (Return keyword_file)) [] = (Return K, [])
    /\ forall k,
         k ∈ K <->
         exists line token,
           In line (PyStr.lines keyword_file) /\ In token (PyStr.split "," line) /\
           PyStr.strip token <> EmptyString /\ k = PyStr.lower (PyStr.strip token).
Proof.
  apply (load_keywords_exact "greeting_keywords.txt" keyword_file
           (with_file "greeting_keywords.txt" (Return keyword_file)) []).
  reflexivity.
Defined.

(** The loader itself never raises [FileNotFoundError]; when it raises,
    the exception is the one [open] raised, nothing was reported on the
    page and no keyword set is produced. *)
Theorem load_keywords_raises (filename : string) (w : world) (tr tr' : list event)
    (e : exn) :
  load_keywords filename w tr = (Raise e, tr') ->
  e <> FileNotFoundError /\ open_text w filename = Raise e /\ tr' = tr.
Proof.
  rewrite load_keywords_eval.
  destruct (open_text w filename) as [text | e0]; [discriminate |].
  destruct e0; intros H; try discriminate H; injection H as <- <-;
    repeat split; discriminate.
Qed.

Lemma load_keywords_raises_witness :
  IsADirectoryError <> FileNotFoundError
  /\ open_text (with_file "keywords" (Raise IsADirectoryError)) "keywords" =
     Raise IsADirectoryError
  /\ @nil event = [].
Proof.
  apply (load_keywords_raises "keywords"
           (with_file "keywords" (Raise IsADirectoryError)) [] [] IsADirectoryError).
  reflexivity.
Defined.

Lemma any_char_lines (p : ascii -> bool) (text : string) :
  existsb (any_char p) (PyStr.lines text) = any_char p text.
Proof.
  induction text as [|c text IH]; [reflexivity |].
  cbn [PyStr.lines any_char]. destruct (Ascii.eqb c PyStr.LF).
  - cbn [existsb any_char]. now rewrite IH, orb_false_r.
  - destruct (PyStr.lines text) as [|l ls].
    + cbn [existsb any_char] in *. now rewrite <- IH, !orb_false_r.
    + cbn [existsb any_char] in *. now rewrite <- IH, orb_assoc.
Qed.

Lemma any_char_split (p : ascii -> bool) (sep : ascii) (s : string) :
  existsb (any_char p) (PyStr.split sep s) =
  any_char (fun c => p c && negb (Ascii.eqb c sep))%bool s.
Proof.
  induction s as [|c s IH]; [reflexivity |].
  cbn [PyStr.split any_char]. destruct (Ascii.eqb c sep).
  - cbn [existsb any_char]. now rewrite IH, andb_false_r.
  - rewrite andb_true_r. destruct (PyStr.split sep s) as [|q ps].
    + cbn [existsb any_char] in *. now rewrite <- IH, !orb_false_r.
    + cbn [existsb any_char] in *. now rewrite <- IH, orb_assoc.
Qed.

Lemma any_char_lstrip (s : string) :
  any_char (fun c => negb (PyStr.is_space c)) (PyStr.lstrip s) =
  any_char (fun c => negb (PyStr.is_space c)) s.
Proof.
  induction s as [|c s IH]; [reflexivity |].
  cbn [PyStr.lstrip]. destruct (PyStr.is_space c) eqn:E; [| reflexivity].
  cbn [any_char]. now rewrite E, IH.
Qed.

Lemma truthy_rstrip (s : string) :
  PyStr.truthy (PyStr.rstrip s) = any_char (fun c => negb (PyStr.is_space c)) s.
Proof.
  induction s as [|c s IH]; [reflexivity |].
  cbn [PyStr.rstrip any_char]. rewrite <- IH.
  destruct (PyStr.rstrip s); cbn [PyStr.truthy].
  - destruct (PyStr.is_space c); reflexivity.
  - now rewrite orb_true_r.
Qed.

Lemma truthy_strip (s : string) :
  PyStr.truthy (PyStr.strip s) = any_char (fun c => negb (PyStr.is_space c)) s.
Proof. unfold PyStr.strip. now rewrite truthy_rstrip, any_char_lstrip. Qed.

Lemma line_keywords_some (line : string) :
  (exists k, k ∈ line_keywords line) <-> any_char keyword_char line = true.
Proof.
  unfold keyword_char.
  rewrite <- (any_char_split (fun c => negb (PyStr.is_space c)) "," line).
  rewrite existsb_exists. split.
  - intros [k Hk]. apply elem_of_line_keywords_iff in Hk.
    destruct Hk as [token (Hin & Ht & _)]. exists token. split; [exact Hin |].
    rewrite <- truthy_strip. now apply truthy_not_empty.
  - intros [token [Hin Ht]]. exists (PyStr.lower (PyStr.strip token)).
    apply elem_of_line_keywords_iff. exists token.
    rewrite <- truthy_strip in Ht. apply truthy_not_empty in Ht. now repeat split.
Qed.

(** The loaded set is empty exactly when the file holds nothing but
    whitespace and commas; such a file is accepted without any report. *)
Theorem load_keywords_empty_iff (filename text : string) (w : world) (tr : list event) :
  open_text w filename = Return text ->
  exists K,
    load_keywords filename w tr = (Return K, tr)
    /\ (K = ∅ <-> any_char keyword_char text = false).
Proof.
  intros Hopen. exists (update_all ∅ text).
  rewrite load_keywords_eval, Hopen. split; [reflexivity |].
  rewrite <- any_char_lines, <- not_true_iff_false, existsb_exists.
  split.
  - intros HK [line [Hin Hline]]. apply line_keywords_some in Hline.
    destruct Hline as [k Hk].
    assert (Hmem : k ∈ update_all ∅ text)
      by (apply elem_of_update_all_iff; right; now exists line).
    rewrite HK in Hmem. set_solver.
  - intros Hnone. apply elem_of_equiv_empty_L. intros k Hk.
    apply elem_of_update_all_iff in Hk. destruct Hk as [Hk | [line [Hin Hk]]].
    + set_solver.
    + apply Hnone. exists line. split; [exact Hin |].
      apply line_keywords_some. now exists k.
Qed.

Lemma load_keywords_empty_iff_witness :
  exists K,
    load_keywords "exit_keywords.txt"
      (with_file "exit_keywords.txt" (Return (" , ," +:+ nl +:+ ","))) [] = (Return K, [])
    /\ (K = ∅ <-> any_char keyword_char (" , ," +:+ nl +:+ ",") = false).
Proof.
  apply (load_keywords_empty_iff "exit_keywords.txt" (" , ," +:+ nl +:+ ",")
           (with_file "exit_keywords.txt" (Return (" , ," +:+ nl +:+ ","))) []).
  reflexivity.
Defined.

(** ** The model client *)

Lemma raises_only_ret {A} (P : exn -> Prop) (a : A) : raises_only P (mret a).
Proof. intros w tr e tr' H. discriminate H. Qed.

Lemma raises_only_raise {A} (P : exn -> Prop) (e : exn) :
  P e -> raises_only P (@raise A e).
Proof. intros HP w tr e' tr' H. injection H as <- _. exact HP. Qed.

Lemma raises_only_bind {A B} (P : exn -> Prop) (m : M A) (k : A -> M B) :
  raises_only P m -> (forall a, raises_only P (k a)) -> raises_only P (m ≫= k).
Proof.
  intros Hm Hk w tr e tr'. unfold mbind, M_bind, bind.
  destruct (m w tr) as [[a | e0] tr1] eqn:E.
  - apply Hk.
  - intros H. injection H as <- <-. exact (Hm _ _ _ _ E).
Qed.

Lemma raises_only_py_get (r : response) (obj : json) (key : string) (default : json) :
  raises_only (exchange_error r) (py_get obj key default).
Proof.
  destruct obj; first [apply raises_only_ret | apply raises_only_raise];
    right; right; unfold extraction_error; tauto.
Qed.

Lemma raises_only_py_item0 (r : response) (obj : json) :
  raises_only (exchange_error r) (py_item0 obj).
Proof.
  destruct obj as [| | | [|c s] | [|x items] |];
    first [apply raises_only_ret | apply raises_only_raise];
    right; right; unfold extraction_error; tauto.
Qed.

Lemma raises_only_raise_for_status (r : response) :
  raises_only (exchange_error r) (raise_for_status r).
Proof.
  unfold raise_for_status.
  destruct (_ && _)%bool; [apply raises_only_raise; now left |].
  destruct (_ && _)%bool; [apply raises_only_raise; now left |].
  apply (raises_only_ret (exchange_error r) tt).
Qed.

Lemma raises_only_response_json (r : response) :
  raises_only (exchange_error r) (response_json r).
Proof.
  intros w tr e tr' H. unfold response_json, lift in H.
  right. left. now injection H as -> _.
Qed.

(** The client raises nothing of the HTTP library: such a fault always
    comes back as text.  What it raises is an exception of another kind
    that [requests.post] raised, or one that [json()] raised on the
    response, or one of the four errors of taking the body apart. *)
Theorem call_llama_api_raises (prompt : string) (w : world) (tr tr' : list event)
    (e : exn) :
  call_llama_api prompt w tr = (Raise e, tr') ->
  is_RequestException e = false
  /\ (requests_post w (chat_request (getenv w "OLLAMA_API_KEY") prompt) = Raise e
      \/ (exists r,
            requests_post w (chat_request (getenv w "OLLAMA_API_KEY") prompt) = Return r
            /\ json_body r = Raise e)
      \/ extraction_error e).
Proof.
  unfold call_llama_api, os_getenv, try_except.
  unfold mbind at 1, M_bind at 1, bind at 1. cbv beta iota.
  unfold mbind at 1, M_bind at 1, bind at 1, post. cbv beta iota.
  fold (chat_request (getenv w "OLLAMA_API_KEY") prompt).
  destruct (requests_post w _) as [r | e0]; cbv beta iota.
  - match goal with
    | |- (match ?m w ?t with _ => _ end) = _ -> _ =>
        assert (Hm : raises_only (exchange_error r) m)
          by (repeat (apply raises_only_bind;
                      [first [apply raises_only_raise_for_status
                             | apply raises_only_response_json
                             | apply raises_only_py_get
                             | apply raises_only_py_item0] | intros ?]);
              apply raises_only_py_get);
        destruct (m w t) as [[a | e1] t1] eqn:E
    end; [discriminate |].
    destruct (is_RequestException e1) eqn:Ee; [discriminate |].
    intros H. injection H as <- <-. split; [exact Ee |].
    destruct (Hm _ _ _ _ E) as [Hreq | [Hjson | Hext]].
    + congruence.
    + right. left. now exists r.
    + now right; right.
  - destruct (is_RequestException e0) eqn:Ee; [discriminate |].
    intros H. injection H as <- <-. split; [exact Ee | now left].
Qed.

Lemma call_llama_api_raises_witness :
  is_RequestException RecursionError = false
  /\ (requests_post (with_server (Return too_deep_response))
        (chat_request None "hello") = Raise RecursionError
      \/ (exists r,
            requests_post (with_server (Return too_deep_response))
              (chat_request None "hello") = Return r
            /\ json_body r = Raise RecursionError)
      \/ extraction_error RecursionError).
Proof.
  apply (call_llama_api_raises "hello" (with_server (Return too_deep_response))
           [] [EvPost (chat_request None "hello")] RecursionError).
  reflexivity.
Defined.

(** When the status is no error status and the body has the expected
    shape, the client returns the content of the message of the first
    choice as it is (whatever kind of value it is); further choices and
    further fields are ignored. *)
Theorem call_llama_api_first_choice (prompt : string) (w : world) (tr : list event)
    (r : response) (fields first msg : list (string * json))
    (others : list json) (reply : json) :
  requests_post w (chat_request (getenv w "OLLAMA_API_KEY") prompt) = Return r ->
  ~ (400 <= status_code r < 600)%Z ->
  json_body r = Return (JObj fields) ->
  assoc "choices" fields = Some (JArr (JObj first :: others)) ->
  assoc "message" first = Some (JObj msg) ->
  assoc "content" msg = Some reply ->
  call_llama_api prompt w tr =
  (Return reply, (tr ++ [EvPost (chat_request (getenv w "OLLAMA_API_KEY") prompt)])%list).
Proof.
  intros Hpost Hstatus Hbody Hchoices Hmsg Hcontent.
  run_client. unfold chat_request in Hpost. rewrite Hpost.
  destruct (Z.leb 400 (status_code r) && Z.ltb (status_code r) 500)%bool eqn:E4;
    [apply andb_true_iff in E4; lia |].
  destruct (Z.leb 500 (status_code r) && Z.ltb (status_code r) 600)%bool eqn:E5;
    [apply andb_true_iff in E5; lia |].
  rewrite Hbody. cbv beta iota. rewrite Hchoices. cbv beta iota.
  rewrite Hmsg. cbv beta iota. now rewrite Hcontent.
Qed.

Lemma call_llama_api_first_choice_witness :
  call_llama_api "What is DNA?"
    (with_server (Return (ok_response (reply_body "A molecule.")))) [] =
  (Return (JStr "A molecule."), [EvPost (chat_request None "What is DNA?")]).
Proof.
  apply (call_llama_api_first_choice "What is DNA?"
           (with_server (Return (ok_response (reply_body "A molecule.")))) []
           (ok_response (reply_body "A molecule."))
           [("choices", JArr [JObj [("message", JObj [("content", JStr "A molecule.")])]])]
           [("message", JObj [("content", JStr "A molecule.")])]
           [("content", JStr "A molecule.")] [] (JStr "A molecule."));
    try reflexivity.
  simpl. lia.
Defined.

(** Whatever comes back, and whether the client returns or raises, it
    has made exactly one request: a POST to the chat-completions
    endpoint for the model llama3.2 with the prompt as its single user
    message.  The bearer token is the environment variable, and the
    text None when the variable is not set. *)
Theorem call_llama_api_single_request (prompt : string) (w : world) (tr : list event) :
  exists r,
    snd (call_llama_api prompt w tr) = (tr ++ [EvPost r])%list
    /\ url r = "http://localhost:11434/v1/chat/completions"
    /\ json_model r = "llama3.2"
    /\ json_messages r = [{| role := "user"; content := prompt |}]
    /\ headers r =
         [("Authorization",
           "Bearer " +:+ match getenv w "OLLAMA_API_KEY" with
                         | Some token => token
                         | None => "None"
                         end);
          ("Content-Type", "application/json")].
Proof.
  exists (chat_request (getenv w "OLLAMA_API_KEY") prompt).
  split; [apply call_llama_api_posts_once |].
  repeat split.
Qed.

(** ** Documents *)

Lemma pages_loop_fault (texts : list string) (e : exn) (rest : list (outcome string)) :
  forall (before : list (outcome string)) (text : string) (w : world) (tr : list event),
    for_each (seq (length before) (length (map Return texts ++ Raise e :: rest)%list))
      (fun text page_num =>
         match (before ++ map Return texts ++ Raise e :: rest)%list !! page_num with
         | Some page => t ← lift page; mret (text +:+ t)
         | None => raise IndexError
         end)
      text w tr
    = (Raise e, tr).
Proof.
  induction texts as [|t texts IH]; intros before text w tr.
  - cbn [map app length seq for_each].
    unfold mbind at 1, M_bind at 1, bind at 1.
    rewrite list_lookup_middle by reflexivity. reflexivity.
  - cbn [map app length seq for_each].
    unfold mbind at 1, M_bind at 1, bind at 1.
    rewrite list_lookup_middle by reflexivity.
    unfold mbind at 1, M_bind at 1, bind at 1, lift, mret, M_ret, ret.
    cbv beta iota.
    specialize (IH (before ++ [Return t])%list (text +:+ t) w tr).
    rewrite length_app, <- app_assoc in IH. simpl in IH.
    rewrite Nat.add_1_r in IH. exact IH.
Qed.

Lemma extract_pdf_text_pages (file : UploadedFile) (w : world) (tr : list event)
    (texts : list string) :
  PdfReader_pages w (read file) = Return (map Return texts) ->
  extract_pdf_text file w tr = (Return (join_pages texts), tr).
Proof.
  intros H. unfold extract_pdf_text.
  unfold mbind at 1, M_bind at 1, bind at 1. rewrite H. cbv beta iota.
  rewrite length_map. exact (pages_loop texts [] "" w tr).
Qed.

Lemma extract_pdf_text_stops (file : UploadedFile) (w : world)
    (tr : list event) (texts : list string) (e : exn) (rest : list (outcome string)) :
  PdfReader_pages w (read file) = Return (map Return texts ++ Raise e :: rest)%list ->
  extract_pdf_text file w tr = (Raise e, tr).
Proof.
  intros H. unfold extract_pdf_text.
  unfold mbind at 1, M_bind at 1, bind at 1. rewrite H. cbv beta iota.
  exact (pages_loop_fault texts e rest [] "" w tr).
Qed.

(** The PDF extractor stops at the first page whose text cannot be
    extracted and raises that page's exception: the text of the pages
    before it is lost and the pages after it are not looked at. *)
Theorem extract_pdf_text_failing_page (file : UploadedFile) (w : world)
    (tr : list event) (texts : list string) (e : exn) (rest : list (outcome string)) :
  PdfReader_pages w (read file) = Return (map Return texts ++ Raise e :: rest)%list ->
  extract_pdf_text file w tr = (Raise e, tr).
Proof.
  intros Hpages. unfold extract_pdf_text.
  unfold mbind at 1, M_bind at 1, bind at 1. rewrite Hpages. cbv beta iota.
  apply (pages_loop_fault texts e rest []).
Qed.

Lemma extract_pdf_text_failing_page_witness :
  extract_pdf_text {| type := "application/pdf"; name := "scan.pdf"; read := [] |}
    (with_pdf [Return "A"; Raise PdfReadError; Return "C"]) [] =
  (Raise PdfReadError, []).
Proof.
  apply (extract_pdf_text_failing_page
           {| type := "application/pdf"; name := "scan.pdf"; read := [] |}
           (with_pdf [Return "A"; Raise PdfReadError; Return "C"]) []
           ["A"] PdfReadError [Return "C"]).
  reflexivity.
Defined.

(** An uploaded PDF whose pages all extract is summarised by one call of
    the model client on the fixed instruction followed by the joined
    page texts; the outcome of the upload is the outcome of that call.
    An empty document is sent like any other. *)
Theorem handle_file_upload_pdf (uploaded_file : UploadedFile) (w : world)
    (tr : list event) (texts : list string) :
  type uploaded_file = "application/pdf" ->
  PdfReader_pages w (read uploaded_file) = Return (map Return texts) ->
  handle_file_upload uploaded_file w tr =
  call_llama_api (summary_prompt (join_pages texts)) w tr.
Proof.
  intros Htype Hpages. unfold handle_file_upload. rewrite Htype.
  cbn [String.eqb Ascii.eqb Bool.eqb]. cbv beta iota.
  unfold mbind at 1, M_bind at 1, bind at 1.
  rewrite (extract_pdf_text_pages _ _ _ _ Hpages). reflexivity.
Qed.

Lemma handle_file_upload_pdf_witness :
  handle_file_upload {| type := "application/pdf"; name := "two.pdf"; read := [] |}
    (with_pdf [Return "Hello "; Return "World"]) [] =
  call_llama_api (summary_prompt "Hello World") (with_pdf [Return "Hello "; Return "World"]) [].
Proof.
  apply (handle_file_upload_pdf
           {| type := "application/pdf"; name := "two.pdf"; read := [] |}
           (with_pdf [Return "Hello "; Return "World"]) [] ["Hello "; "World"]);
    reflexivity.
Defined.

(** An uploaded plain-text file whose bytes decode is summarised by one
    call of the model client on the fixed instruction followed by the
    decoded text, unchanged. *)
Theorem handle_file_upload_text (uploaded_file : UploadedFile) (w : world)
    (tr : list event) (text : string) :
  type uploaded_file = "text/plain" ->
  decode_utf8 w (read uploaded_file) = Return text ->
  handle_file_upload uploaded_file w tr = call_llama_api (summary_prompt text) w tr.
Proof.
  intros Htype Hdecode. unfold handle_file_upload. rewrite Htype.
  cbn [String.eqb Ascii.eqb Bool.eqb]. cbv beta iota.
  unfold mbind at 1, M_bind at 1, bind at 1. rewrite Hdecode. reflexivity.
Qed.

(** When the text of the document cannot be extracted, the upload
    handler raises the extractor's exception to its caller and makes no
    request. *)
Theorem handle_file_upload_extraction_fault (uploaded_file : UploadedFile)
    (w : world) (tr : list event) (e : exn) :
  extraction_fails w uploaded_file e ->
  handle_file_upload uploaded_file w tr = (Raise e, tr).
Proof.
  unfold handle_file_upload.
  intros [[Htype Hpdf] | [Htype Hdecode]];
    rewrite Htype; cbn [String.eqb Ascii.eqb Bool.eqb]; cbv beta iota;
    unfold mbind at 1, M_bind at 1, bind at 1.
  - destruct Hpdf as [Hopen | [texts [rest Hpages]]].
    + unfold extract_pdf_text.
      unfold mbind at 1, M_bind at 1, bind at 1. now rewrite Hopen.
    + now rewrite (extract_pdf_text_stops _ _ _ _ _ _ Hpages).
  - now rewrite Hdecode.
Qed.

Lemma handle_file_upload_extraction_fault_witness :
  handle_file_upload {| type := "text/plain"; name := "notes.txt"; read := [] |}
    offline [] = (Raise UnicodeDecodeError, []).
Proof.
  apply (handle_file_upload_extraction_fault
           {| type := "text/plain"; name := "notes.txt"; read := [] |}
           offline [] UnicodeDecodeError).
  right. split; reflexivity.
Defined.

Lemma handle_file_upload_text_witness :
  handle_file_upload {| type := "text/plain"; name := "notes.txt"; read := [] |}
    (with_text (Return "Cells divide.")) [] =
  call_llama_api (summary_prompt "Cells divide.") (with_text (Return "Cells divide.")) [].
Proof.
  apply (handle_file_upload_text
           {| type := "text/plain"; name := "notes.txt"; read := [] |}
           (with_text (Return "Cells divide.")) [] "Cells divide.");
    reflexivity.
Defined.

Lemma quiet_lift {A} (o : outcome A) : quiet (lift o).
Proof. intros w tr. reflexivity. Qed.

Lemma quiet_for_each {A S} (xs : list A) (body : S -> A -> M S) :
  (forall s x, quiet (body s x)) -> forall s, quiet (for_each xs body s).
Proof.
  intros Hbody. induction xs as [|x xs IH]; intros s.
  - apply quiet_ret.
  - cbn [for_each]. apply quiet_bind; [apply Hbody | exact IH].
Qed.

Lemma quiet_extract_pdf_text (file : UploadedFile) : quiet (extract_pdf_text file).
Proof.
  unfold extract_pdf_text. apply quiet_bind.
  - intros w tr. reflexivity.
  - intros pages. apply quiet_for_each. intros text page_num.
    destruct (pages !! page_num) as [page |]; [| apply quiet_raise].
    apply quiet_bind; [apply quiet_lift | intros t; apply quiet_ret].
Qed.

Lemma after_quiet {A B} (m : M A) (k : A -> M B) (w : world) (tr : list event) :
  quiet m ->
  snd ((m ≫= k) w tr) = tr \/ exists a, snd ((m ≫= k) w tr) = snd (k a w tr).
Proof.
  intros Hm. unfold mbind, M_bind, bind. specialize (Hm w tr).
  destruct (m w tr) as [[a | e] tr1]; simpl in Hm; subst tr1.
  - right. now exists a.
  - now left.
Qed.

Lemma handle_file_upload_trace (uploaded_file : UploadedFile)
    (w : world) (tr : list event) :
  snd (handle_file_upload uploaded_file w tr) = tr
  \/ exists r, snd (handle_file_upload uploaded_file w tr) = (tr ++ [EvPost r])%list.
Proof.
  unfold handle_file_upload.
  destruct (String.eqb (type uploaded_file) "application/pdf").
  - destruct (after_quiet (extract_pdf_text uploaded_file)
                (fun text => generate_summary_with_model text) w tr
                (quiet_extract_pdf_text _))
      as [H | [text H]]; [now left |].
    right. eexists. refine (eq_trans H _). apply call_llama_api_posts_once.
  - destruct (String.eqb (type uploaded_file) "text/plain"); [| now left].
    destruct (after_quiet
                (fun w tr => (decode_utf8 w (read uploaded_file), tr))
                (fun text => generate_summary_with_model text) w tr)
      as [H | [text H]].
    + intros w' tr'. reflexivity.
    + now left.
    + right. eexists. refine (eq_trans H _). apply call_llama_api_posts_once.
Qed.


(** ** The chatbot *)



(** The chatbot leaves the world untouched exactly when the first
    matching category is not StemQuestion: the model is contacted for a
    StemQuestion and for nothing else. *)
Theorem stem_chatbot_requests (user_input : string)
    (stem greeting exit appointment reschedule : gset string)
    (w : world) (tr : list event) :
  snd (stem_chatbot user_input stem greeting exit appointment reschedule w tr) = tr
  <-> spec_classify user_input greeting reschedule appointment stem exit <> StemQuestion.
Proof.
  rewrite stem_chatbot_routes.
  destruct (spec_classify user_input greeting reschedule appointment stem exit);
    try (split; [discriminate | reflexivity]).
  cbn [spec_route]. rewrite call_llama_api_posts_once. split.
  - intros H. apply (f_equal (@length event)) in H.
    rewrite length_app in H. simpl in H. lia.
  - congruence.
Qed.

Lemma stem_chatbot_requests_trace (user_input : string)
    (stem greeting exit appointment reschedule : gset string)
    (w : world) (tr : list event) :
  snd (stem_chatbot user_input stem greeting exit appointment reschedule w tr) = tr
  \/ exists r,
       snd (stem_chatbot user_input stem greeting exit appointment reschedule w tr) =
       (tr ++ [EvPost r])%list.
Proof.
  rewrite stem_chatbot_routes.
  destruct (spec_classify user_input greeting reschedule appointment stem exit);
    try (now left).
  right. eexists. apply call_llama_api_posts_once.
Qed.

(** ** The page *)

Lemma app_for_render (entries : list ChatMessage) (w : world) (st : app_state) :
  app_for entries
    (fun chat => _ ← ui (StChatMessage (chat_role chat));
                 ui (StMarkdown (chat_message chat))) w st =
  (Return tt,
   {| session := session st;
      page := (page st ++ render_history entries)%list;
      effects := effects st |}).
Proof.
  revert st. induction entries as [|chat entries IH]; intros [s pg eff].
  - simpl. unfold app_ret. now rewrite app_nil_r.
  - cbn [app_for]. unfold app_bind at 1.
    unfold mbind at 1, App_bind at 1, app_bind at 1, ui. cbv beta iota.
    rewrite IH. cbn [session page effects render_history flat_map].
    now rewrite <- !app_assoc.
Qed.

Lemma error_boxes_app (a b : list event) :
  error_boxes (a ++ b) = (error_boxes a ++ error_boxes b)%list.
Proof. unfold error_boxes. apply omap_app. Qed.

Lemma load_keywords_appends (filename : string) (w : world) (tr : list event) :
  exists new, snd (load_keywords filename w tr) = (tr ++ new)%list.
Proof.
  rewrite load_keywords_eval.
  destruct (open_text w filename) as [text | e].
  - exists []. cbn [snd]. now rewrite app_nil_r.
  - destruct e; first [now eexists | exists []; cbn [snd]; now rewrite app_nil_r].
Qed.

Ltac tidy_lists :=
  repeat rewrite drop_app_length;
  repeat rewrite <- app_assoc;
  repeat rewrite drop_app_length;
  repeat rewrite error_boxes_app;
  repeat rewrite <- app_assoc;
  cbn [app].

(** One run of [main], cut at its two seams: the page and the session
    are prepared, the five keyword files are loaded, their reports
    drawn under the title, and when they all load the history is
    displayed and the form is handled. *)
Lemma main_run (widgets : form_values) (w : world) (st0 : app_state) :
  main widgets w st0 =
  match load_keyword_files w (effects st0) with
  | (Raise e, effects') =>
      (Raise e,
       {| session := initialised (session st0);
          page := (page st0 ++ [StTitle TITLE]
                   ++ error_boxes (drop (length (effects st0)) effects'))%list;
          effects := effects' |})
  | (Return (stem, greeting, exit, appointment, reschedule), effects') =>
      main_submit widgets stem greeting exit appointment reschedule w
        {| session := initialised (session st0);
           page := (page st0 ++ [StTitle TITLE]
                    ++ error_boxes (drop (length (effects st0)) effects')
                    ++ [StSubheader "Chat History"]
                    ++ render_history (history st0) ++ form_calls)%list;
           effects := effects' |}
  end.
Proof.
  destruct st0 as [[h ended] pg eff].
  unfold main, load_keyword_files, history, initialised.
  cbn [session page effects chat_history session_ended].
  unfold mbind, App_bind, M_bind, app_bind, bind, ui, init_chat_history,
    init_session_ended, core, get_chat_history, with_session.
  cbn [session page effects chat_history session_ended].
  destruct h as [h |], ended as [ended |];
    cbn [session page effects chat_history session_ended default];
    repeat (match goal with
            | |- context [load_keywords ?f w ?t] =>
                let new := fresh "new" in
                let Hnew := fresh "Hnew" in
                destruct (load_keywords_appends f w t) as [new Hnew];
                destruct (load_keywords f w t) as [[? | ?] ?];
                cbn [snd] in Hnew; subst;
                cbn [session page effects chat_history session_ended]
            end; try (tidy_lists; reflexivity));
    rewrite app_for_render;
    cbn [session page effects chat_history session_ended];
    unfold main_submit, mret, App_ret, app_ret, M_ret, ret, form_calls;
    cbv beta iota; tidy_lists; reflexivity.
Qed.

Lemma silent_bind {A B} (m : M A) (k : A -> M B) :
  silent m -> (forall a, silent (k a)) -> silent (m ≫= k).
Proof.
  intros Hm Hk w tr. unfold mbind, M_bind, bind.
  specialize (Hm w tr). destruct (m w tr) as [[a | e] tr1]; simpl in Hm.
  - now rewrite Hk.
  - exact Hm.
Qed.

Lemma silent_load_keywords (filename : string) : silent (load_keywords filename).
Proof.
  intros w tr. rewrite load_keywords_eval.
  destruct (open_text w filename) as [text | e]; [reflexivity |].
  destruct e; try reflexivity.
  cbn [snd]. unfold posts. rewrite omap_app. cbn. now rewrite app_nil_r.
Qed.

Lemma silent_load_keyword_files : silent load_keyword_files.
Proof.
  unfold load_keyword_files.
  repeat (apply silent_bind; [apply silent_load_keywords | intros ?]).
  intros w tr. reflexivity.
Qed.

Lemma in_keyword_paths (file : string) :
  In file ["stem_keywords.txt"; "greeting_keywords.txt"; "exit_keywords.txt";
           "appointment_keywords.txt"; "reschedule_keywords.txt"] ->
  In (KEYWORD_DIR +:+ file) keyword_paths.
Proof. unfold keyword_paths. apply in_map. Qed.

(** Loading a keyword file that is readable or missing. *)
Lemma load_keywords_open (filename : string) (w : world) (tr : list event) :
  (forall e, open_text w filename = Raise e -> e = FileNotFoundError) ->
  load_keywords filename w tr =
  (Return (loaded_keywords w filename),
   (tr ++ map EvStError (missing_report w filename))%list).
Proof.
  intros Hopen. rewrite load_keywords_eval. unfold loaded_keywords, missing_report.
  destruct (open_text w filename) as [text | e] eqn:E.
  - cbn [map]. now rewrite app_nil_r.
  - rewrite (Hopen e eq_refl). reflexivity.
Qed.

Lemma load_keyword_files_open (w : world) (tr : list event) :
  keyword_files_open w ->
  load_keyword_files w tr =
  (Return (loaded_keywords w (KEYWORD_DIR +:+ "stem_keywords.txt"),
           loaded_keywords w (KEYWORD_DIR +:+ "greeting_keywords.txt"),
           loaded_keywords w (KEYWORD_DIR +:+ "exit_keywords.txt"),
           loaded_keywords w (KEYWORD_DIR +:+ "appointment_keywords.txt"),
           loaded_keywords w (KEYWORD_DIR +:+ "reschedule_keywords.txt")),
   (tr ++ map EvStError (missing_reports w))%list).
Proof.
  intros Hopen.
  assert (Hpath : forall file,
            In file ["stem_keywords.txt"; "greeting_keywords.txt"; "exit_keywords.txt";
                     "appointment_keywords.txt"; "reschedule_keywords.txt"] ->
            forall e, open_text w (KEYWORD_DIR +:+ file) = Raise e ->
                      e = FileNotFoundError)
    by (intros file Hin e; apply Hopen, in_keyword_paths, Hin).
  unfold load_keyword_files, mbind, M_bind, bind.
  rewrite load_keywords_open by (apply Hpath; cbn [In]; tauto).
  rewrite load_keywords_open by (apply Hpath; cbn [In]; tauto).
  rewrite load_keywords_open by (apply Hpath; cbn [In]; tauto).
  rewrite load_keywords_open by (apply Hpath; cbn [In]; tauto).
  rewrite load_keywords_open by (apply Hpath; cbn [In]; tauto).
  unfold mret, M_ret, ret, missing_reports, keyword_paths.
  cbn [map flat_map]. rewrite !map_app, app_nil_r, <- !app_assoc. reflexivity.
Qed.

Lemma error_boxes_reports (reports : list string) :
  error_boxes (map EvStError reports) = map StError reports.
Proof. induction reports as [|r rs IH]; [reflexivity |]. cbn. now rewrite <- IH. Qed.

(** A call that reports nothing leaves the page as it is. *)
Lemma core_without_report {A} (m : M A) (w : world) (st : app_state) :
  (snd (m w (effects st)) = effects st \/
   exists r, snd (m w (effects st)) = (effects st ++ [EvPost r])%list) ->
  core m w st =
  (fst (m w (effects st)),
   {| session := session st; page := page st; effects := snd (m w (effects st)) |}).
Proof.
  unfold core. destruct (m w (effects st)) as [o eff']. cbn [fst snd].
  intros [-> | [r ->]].
  - now rewrite drop_all, app_nil_r.
  - rewrite drop_app_length. cbn. now rewrite app_nil_r.
Qed.

Lemma main_submit_run (widgets : form_values)
    (stem greeting exit appointment reschedule : gset string)
    (w : world) (h : list ChatMessage) (ended : option bool)
    (pg : list ui_call) (eff : list event) :
  let at_state entries eff' :=
    {| session := {| chat_history := Some entries; session_ended := ended |};
       page := pg; effects := eff' |} in
  main_submit widgets stem greeting exit appointment reschedule w (at_state h eff) =
  if form_submit_button widgets then
    match file_uploader widgets with
    | Some uploaded_file =>
        match handle_file_upload uploaded_file w eff with
        | (Return file_summary, eff') =>
            (Return tt,
             at_state (h ++ [user_entry ("Uploaded file: " +:+ name uploaded_file);
                             bot_entry file_summary])%list eff')
        | (Raise e, eff') => (Raise e, at_state h eff')
        end
    | None =>
        if PyStr.truthy (text_input widgets) then
          match stem_chatbot (text_input widgets) stem greeting exit appointment
                  reschedule w eff with
          | (Return bot_response, eff') =>
              (Return tt,
               at_state (h ++ [user_entry (text_input widgets);
                               bot_entry bot_response])%list eff')
          | (Raise e, eff') =>
              (Raise e, at_state (h ++ [user_entry (text_input widgets)])%list eff')
          end
        else (Return tt, at_state h eff)
    end
  else (Return tt, at_state h eff).
Proof.
  intros at_state. subst at_state. unfold main_submit.
  destruct (form_submit_button widgets); [| reflexivity].
  destruct (file_uploader widgets) as [uploaded_file |].
  - unfold mbind at 1, App_bind at 1, app_bind at 1.
    rewrite core_without_report by apply handle_file_upload_trace.
    cbn [session page effects].
    destruct (handle_file_upload uploaded_file w eff) as [[summary | e] eff'];
      [| reflexivity].
    unfold mbind, App_bind, app_bind, append_chat_history, with_session.
    cbn [fst snd session page effects chat_history session_ended].
    now rewrite <- app_assoc.
  - destruct (PyStr.truthy (text_input widgets)); [| reflexivity].
    unfold mbind at 1, App_bind at 1, app_bind at 1, append_chat_history at 1,
      with_session.
    cbn [session page effects chat_history session_ended].
    unfold mbind at 1, App_bind at 1, app_bind at 1.
    rewrite core_without_report by apply stem_chatbot_requests_trace.
    cbn [session page effects].
    destruct (stem_chatbot _ _ _ _ _ _ w eff) as [[reply | e] eff'];
      [| reflexivity].
    unfold append_chat_history, with_session.
    cbn [fst snd session page effects chat_history session_ended].
    now rewrite <- app_assoc.
Qed.

Ltac run_main :=
  rewrite main_run; unfold initialised, history;
  match goal with
  | |- context [load_keyword_files ?w ?t] =>
      let sets := fresh "sets" in
      let e := fresh "e" in
      let eff := fresh "eff" in
      let E := fresh "Eload" in
      destruct (load_keyword_files w t) as [[sets | e] eff] eqn:E;
      [destruct sets as [[[[? ?] ?] ?] ?]; rewrite main_submit_run |]
  end.

(** [main] never ends the session: after a run, however it went, the
    flag is what it was before, and false when it was not there. *)
Theorem main_never_ends_session (widgets : form_values) (w : world) (st0 : app_state) :
  session_ended (session (snd (main widgets w st0))) =
  Some (default false (session_ended (session st0))).
Proof.
  run_main; [| reflexivity].
  repeat match goal with
         | |- context [match ?x with _ => _ end] => destruct x
         end; reflexivity.
Qed.

(** A run that returns has left the earlier history in place and has
    added to it either nothing, when the form was not submitted or was
    submitted without file and without text, or exactly one user entry
    followed by one bot entry. *)
Theorem main_history_on_return (widgets : form_values) (w : world)
    (st0 st' : app_state) :
  main widgets w st0 = (Return tt, st') ->
  exists new,
    chat_history (session st') = Some (history st0 ++ new)%list
    /\ if submitted widgets
       then exists text reply, new = [user_entry text; bot_entry reply]
       else new = [].
Proof.
  unfold submitted. run_main; [| discriminate].
  destruct (form_submit_button widgets); cbn [andb].
  - destruct (file_uploader widgets) as [uploaded_file |]; cbn [orb bool_decide].
    + destruct (handle_file_upload uploaded_file w eff) as [[summary | e] eff'];
        [| discriminate].
      intros H. injection H as <-. eexists. split; [reflexivity |].
      rewrite bool_decide_eq_true_2 by eauto. cbn [orb]. eauto.
    + rewrite bool_decide_eq_false_2 by (intros [? ?]; discriminate). cbn [orb].
      destruct (PyStr.truthy (text_input widgets)).
      * destruct (stem_chatbot _ _ _ _ _ _ w eff) as [[reply | e] eff'];
          [| discriminate].
        intros H. injection H as <-. eexists. split; [reflexivity |]. eauto.
      * intros H. injection H as <-. exists []. now rewrite app_nil_r.
  - intros H. injection H as <-. exists []. now rewrite app_nil_r.
Qed.

(** When a file is attached, the text typed into the form is ignored:
    the run is the same whatever the text. *)
Theorem main_file_takes_precedence (widgets : form_values) (other_text : string)
    (w : world) (st0 : app_state) :
  is_Some (file_uploader widgets) ->
  main widgets w st0 =
  main {| text_input := other_text;
          file_uploader := file_uploader widgets;
          form_submit_button := form_submit_button widgets |} w st0.
Proof.
  intros [uploaded_file Hfile]. rewrite !main_run.
  destruct (load_keyword_files w (effects st0)) as [[sets | e] eff]; [| reflexivity].
  destruct sets as [[[[? ?] ?] ?] ?]. unfold main_submit.
  cbn [text_input file_uploader form_submit_button]. now rewrite Hfile.
Qed.

(** When the five keyword files load and answering the typed question
    raises, the run raises the same exception, and the question is
    already in the history, where it stays without an answer. *)
Theorem main_question_fault (widgets : form_values) (w : world) (st0 : app_state)
    (stem greeting exit appointment reschedule : gset string)
    (eff eff' : list event) (e : exn) :
  form_submit_button widgets = true ->
  file_uploader widgets = None ->
  text_input widgets <> EmptyString ->
  load_keyword_files w (effects st0) =
    (Return (stem, greeting, exit, appointment, reschedule), eff) ->
  stem_chatbot (text_input widgets) stem greeting exit appointment reschedule w eff =
    (Raise e, eff') ->
  exists st',
    main widgets w st0 = (Raise e, st')
    /\ chat_history (session st') =
       Some (history st0 ++ [user_entry (text_input widgets)])%list.
Proof.
  intros Hsubmit Hfile Htext Hload Hraise.
  apply truthy_not_empty in Htext.
  rewrite main_run, Hload. unfold initialised, history.
  rewrite main_submit_run, Hsubmit, Hfile, Htext, Hraise.
  eexists. split; reflexivity.
Qed.

(** When a run with an attached file raises, the history is as it was:
    the upload is handled before anything is recorded. *)
Theorem main_upload_fault (widgets : form_values) (w : world)
    (st0 st' : app_state) (e : exn) :
  form_submit_button widgets = true ->
  is_Some (file_uploader widgets) ->
  main widgets w st0 = (Raise e, st') ->
  chat_history (session st') = Some (history st0).
Proof.
  intros Hsubmit [uploaded_file Hfile].
  run_main.
  - rewrite Hsubmit, Hfile.
    destruct (handle_file_upload uploaded_file w eff) as [[summary | e'] eff'];
      [discriminate |].
    intros H. now injection H as _ <-.
  - intros H. now injection H as _ <-.
Qed.

(** When none of the five keyword files is unreadable, the page of a
    run is the title, one error box for each missing keyword file in
    the order they are loaded, the subheader, the chat history as it was
    before the run and the form: the entries the run itself adds are not
    displayed by it. *)
Theorem main_page (widgets : form_values) (w : world) (st0 : app_state) :
  keyword_files_open w ->
  page (snd (main widgets w st0)) =
  (page st0 ++ [StTitle TITLE] ++ map StError (missing_reports w)
   ++ [StSubheader "Chat History"]
   ++ render_history (history st0) ++ form_calls)%list.
Proof.
  intros Hopen.
  rewrite main_run, (load_keyword_files_open w (effects st0) Hopen).
  rewrite drop_app_length, error_boxes_reports.
  unfold initialised, history. rewrite main_submit_run.
  repeat match goal with
         | |- context [match ?x with _ => _ end] => destruct x
         end; reflexivity.
Qed.

Lemma stem_chatbot_no_keywords (user_input : string) (w : world) (tr : list event) :
  stem_chatbot user_input ∅ ∅ ∅ ∅ ∅ w tr = (Return (JStr FALLBACK_REPLY), tr).
Proof.
  unfold stem_chatbot, is_greeting_query, is_reschedule_query,
    is_appointment_query, is_stem_query, is_exit_query.
  now rewrite is_keyword_match_empty.
Qed.

(** With the five keyword files missing, as on any machine but the
    author's, a run still returns: it reports the five files, each in
    an error box under the title, and a typed question gets the
    fallback text without any request. *)
Theorem main_missing_keyword_files (widgets : form_values) (w : world)
    (st0 : app_state) :
  (forall filename,
     In filename keyword_paths -> open_text w filename = Raise FileNotFoundError) ->
  form_submit_button widgets = true ->
  file_uploader widgets = None ->
  text_input widgets <> EmptyString ->
  let reports :=
    map (fun filename => "Keyword file not found: " +:+ filename) keyword_paths in
  main widgets w st0 =
  (Return tt,
   {| session :=
        {| chat_history :=
             Some (history st0 ++ [user_entry (text_input widgets);
                                   bot_entry (JStr FALLBACK_REPLY)])%list;
           session_ended := Some (default false (session_ended (session st0))) |};
      page := (page st0 ++ [StTitle TITLE] ++ map StError reports
               ++ [StSubheader "Chat History"]
               ++ render_history (history st0) ++ form_calls)%list;
      effects := (effects st0 ++ map EvStError reports)%list |}).
Proof.
  intros Hmissing Hsubmit Hfile Htext reports. subst reports.
  apply truthy_not_empty in Htext.
  assert (Hopen : keyword_files_open w).
  { intros filename e Hin E. rewrite (Hmissing filename Hin) in E. now injection E as <-. }
  assert (Hreports : missing_reports w =
                     map (fun filename => "Keyword file not found: " +:+ filename)
                         keyword_paths).
  { unfold missing_reports. generalize Hmissing. generalize keyword_paths.
    intros paths Hall. induction paths as [|path paths IH]; [reflexivity |].
    cbn [flat_map map]. unfold missing_report at 1.
    rewrite (Hall path) by now left.
    rewrite IH by (intros f Hf; apply Hall; now right). reflexivity. }
  assert (Hnone : forall file,
            In file ["stem_keywords.txt"; "greeting_keywords.txt"; "exit_keywords.txt";
                     "appointment_keywords.txt"; "reschedule_keywords.txt"] ->
            loaded_keywords w (KEYWORD_DIR +:+ file) = ∅).
  { intros file Hin. unfold loaded_keywords.
    now rewrite (Hmissing _ (in_keyword_paths file Hin)). }
  rewrite main_run, (load_keyword_files_open w (effects st0) Hopen), Hreports.
  rewrite !Hnone by (cbn [In]; tauto).
  rewrite drop_app_length, error_boxes_reports.
  unfold initialised, history.
  rewrite main_submit_run, Hsubmit, Hfile, Htext.
  now rewrite stem_chatbot_no_keywords.
Qed.

Ltac no_request Hsilent :=
  exists []; rewrite app_nil_r; cbn [snd effects];
  split; [exact Hsilent | split; [simpl; lia | intros _; reflexivity]].

Ltac one_request Hone Hsilent :=
  eexists [_]; cbn [snd effects];
  split; [rewrite Hone, Hsilent; reflexivity | split; [simpl; lia | discriminate]].

(** A run makes at most one request, and none unless the form was
    submitted with a file or with a text. *)
Theorem main_requests (widgets : form_values) (w : world) (st0 : app_state) :
  exists new,
    posts (effects (snd (main widgets w st0))) = (posts (effects st0) ++ new)%list
    /\ length new <= 1
    /\ (submitted widgets = false -> new = []).
Proof.
  assert (Hone : forall tr r, posts (tr ++ [EvPost r]) = (posts tr ++ [r])%list)
    by (intros tr r; unfold posts; now rewrite omap_app).
  pose proof (silent_load_keyword_files w (effects st0)) as Hsilent.
  unfold submitted. run_main; cbn [snd] in Hsilent; [| no_request Hsilent].
  destruct (form_submit_button widgets); cbn [andb]; [| no_request Hsilent].
  destruct (file_uploader widgets) as [uploaded_file |]; cbn [orb].
  - rewrite bool_decide_eq_true_2 by eauto. cbn [orb].
    pose proof (handle_file_upload_trace uploaded_file w eff) as Htrace.
    destruct (handle_file_upload uploaded_file w eff) as [[summary | e] eff'];
      cbn [snd] in Htrace; destruct Htrace as [-> | [r ->]];
      first [no_request Hsilent | one_request Hone Hsilent].
  - rewrite bool_decide_eq_false_2 by (intros [? ?]; discriminate). cbn [orb].
    destruct (PyStr.truthy (text_input widgets)); [| no_request Hsilent].
    match goal with
    | |- context [stem_chatbot ?i ?a ?b ?c ?d ?f w eff] =>
        pose proof (stem_chatbot_requests_trace i a b c d f w eff) as Htrace;
        destruct (stem_chatbot i a b c d f w eff) as [[reply | e] eff']
    end;
      cbn [snd] in Htrace; destruct Htrace as [-> | [r ->]];
      first [no_request Hsilent | one_request Hone Hsilent].
Qed.

(** ** Runs of the page, as instances *)

Lemma offline_files_open : keyword_files_open offline.
Proof. intros filename e _ H. now injection H as <-. Qed.

Lemma main_history_on_return_witness :
  exists new,
    chat_history (session (snd (main (ask "Hi") offline fresh_state))) =
      Some (history fresh_state ++ new)%list
    /\ if submitted (ask "Hi")
       then exists text reply, new = [user_entry text; bot_entry reply]
       else new = [].
Proof.
  apply (main_history_on_return (ask "Hi") offline fresh_state
           (snd (main (ask "Hi") offline fresh_state))).
  vm_compute. reflexivity.
Defined.

Lemma main_file_takes_precedence_witness :
  let file := {| type := "image/png"; name := "logo.png"; read := [] |} in
  main (attach "What is biology?" file) offline fresh_state =
  main (attach "" file) offline fresh_state.
Proof.
  intros file.
  apply (main_file_takes_precedence (attach "What is biology?" file) "" offline
           fresh_state).
  now exists file.
Defined.

Lemma main_question_fault_witness :
  let w := stem_world (Return (ok_response empty_choices_body)) in
  exists st',
    main (ask "What is biology?") w fresh_state = (Raise IndexError, st')
    /\ chat_history (session st') =
       Some (history fresh_state ++ [user_entry "What is biology?"])%list.
Proof.
  intros w.
  apply (main_question_fault (ask "What is biology?") w fresh_state
           (loaded_keywords w (KEYWORD_DIR +:+ "stem_keywords.txt")) ∅ ∅ ∅ ∅
           (map EvStError (missing_reports w))
           (map EvStError (missing_reports w)
            ++ [EvPost (chat_request None "What is biology?")])%list
           IndexError).
  - reflexivity.
  - reflexivity.
  - discriminate.
  - vm_compute. reflexivity.
  - vm_compute. reflexivity.
Defined.

Lemma main_upload_fault_witness :
  let file := {| type := "application/pdf"; name := "scan.pdf"; read := [] |} in
  chat_history (session (snd (main (attach "" file) offline fresh_state))) =
  Some (history fresh_state).
Proof.
  intros file.
  apply (main_upload_fault (attach "" file) offline fresh_state
           (snd (main (attach "" file) offline fresh_state)) PdfReadError).
  - reflexivity.
  - now exists file.
  - vm_compute. reflexivity.
Defined.

Lemma main_page_witness :
  page (snd (main (ask "Hi") offline fresh_state)) =
  (page fresh_state ++ [StTitle TITLE] ++ map StError (missing_reports offline)
   ++ [StSubheader "Chat History"]
   ++ render_history (history fresh_state) ++ form_calls)%list.
Proof.
  apply (main_page (ask "Hi") offline fresh_state). apply offline_files_open.
Defined.

Lemma main_missing_keyword_files_witness :
  chat_history (session (snd (main (ask "What is biology?") offline fresh_state))) =
  Some [user_entry "What is biology?"; bot_entry (JStr FALLBACK_REPLY)].
Proof.
  rewrite (main_missing_keyword_files (ask "What is biology?") offline fresh_state);
    [reflexivity | reflexivity | reflexivity | reflexivity | discriminate].
Defined.

Lemma main_requests_witness :
  exists new,
    posts (effects (snd (main (ask "") offline fresh_state))) =
      (posts (effects fresh_state) ++ new)%list
    /\ length new <= 1
    /\ (submitted (ask "") = false -> new = []).
Proof. apply (main_requests (ask "") offline fresh_state). Defined.
